(** * img-editor: the conversion endpoint and the batch converter

    A shallow embedding of two parts of the repository:

    - [Convert]: the [/api/convert] route handler ([POST]), which drives the
      [sharp] image library through a chain of builder calls;
    - [Batch]: the [BatchConverter] component, seen as a transition system
      over its React state ([files], [settings], [isProcessing]) and the
      pending invocations of [processAllFiles].

    The image library itself is not part of the repository.  It enters the
    model as a record of functions ([Convert.SharpModule]); every statement
    about the handler is proved for an arbitrary such record. *)

From Stdlib Require Import List String Ascii Bool ZArith QArith Qminmax Qround.
From Stdlib Require Import Lia Lqa Strings.Byte Sorted Permutation.
Import ListNotations.

Local Open Scope Z_scope.

(** ** JavaScript values used by the two programs *)

(** A JavaScript number.  The programs only compare numbers and select among
    them ([Math.max], [Math.min]); they never compute with them, so a finite
    double is represented by the rational it denotes. *)
Definition number := Q.

(** An optional property: [None] is JavaScript's [undefined]. *)
Definition optional (A : Type) := option A.

(** [x > y] on numbers. *)
Definition gt (x y : number) : bool := negb (Qle_bool x y).

(** Truthiness of an optional number: [undefined] and [0] are falsy. *)
Definition truthy_number (x : optional number) : bool :=
  match x with
  | None => false
  | Some q => negb (Qeq_bool q 0%Q)
  end.

(** Truthiness of an optional string: [undefined] and [''] are falsy. *)
Definition truthy_string (x : optional string) : bool :=
  match x with
  | None => false
  | Some s => negb (String.eqb s EmptyString)
  end.

(** [Math.max] and [Math.min] on two numbers. *)
Definition Math_max (x y : number) : number := Qmax x y.
Definition Math_min (x y : number) : number := Qmin x y.

(** Destructuring default: [x = d] takes [d] exactly when [x] is undefined. *)
Definition default {A : Type} (d : A) (x : optional A) : A :=
  match x with
  | None => d
  | Some v => v
  end.

(** ** The conversion endpoint *)

Module Convert.

Definition Buffer := list byte.

(** The request body after [request.json()], with the properties the
    handler destructures. *)
Record Filters := {
  brightness : optional number;
  saturation : optional number;
  contrast : optional number;
  blur : optional number;
  sharpen : optional number
}.

Record Body := {
  image : optional string;
  format : optional string;
  quality : optional number;
  width : optional number;
  height : optional number;
  rotate : optional number;
  filters : optional Filters
}.

(** [{}] *)
Definition no_filters : Filters :=
  {| brightness := None; saturation := None; contrast := None;
     blur := None; sharpen := None |}.

(** The options object passed to [resize]. *)
Record ResizeOptions := {
  fit : string;
  withoutEnlargement : bool
}.

(** One builder call on a [sharp] instance, with its arguments. *)
Inductive op : Type :=
| Resize (w h : optional number) (options : ResizeOptions)
| Rotate (angle : optional number)
| Modulate (brightness saturation : optional number)
| Linear (a : optional number) (b : number)
| Blur (sigma : number)
| Sharpen (sigma : optional number)
| Png (quality : number)
| Webp (quality : number)
| Jpeg (quality : number).

(** A [sharp] instance: the input buffer and the calls recorded so far, in
    the order they were made. *)
Record Sharp := {
  input : Buffer;
  ops : list op
}.

(** What the handler uses from its environment.  [accepts] says whether a
    builder call returns (rather than throws) on the given instance;
    [toBuffer] renders the instance, [None] when the promise rejects. *)
Record SharpModule := {
  Buffer_from_base64 : string -> Buffer;
  Buffer_toString_base64 : Buffer -> string;
  sharp_accepts : Buffer -> bool;
  accepts : Sharp -> op -> bool;
  toBuffer : Sharp -> option Buffer
}.

(** Responses built by the handler. *)
Inductive Payload : Type :=
| JsonError (error : string)
| PlainText (text : string).

Record Response := {
  status : Z;
  payload : Payload
}.

Section Handler.

Variable lib : SharpModule.

(** A throwing call aborts the [try] block: [None]. *)
Definition throws (A : Type) := option A.

Definition bind {A B : Type} (m : throws A) (k : A -> throws B) :
  throws B :=
  match m with
  | Some a => k a
  | None => None
  end.

Notation "x <- m ;; k" := (bind m (fun x => k))
  (at level 61, m at next level, right associativity).

(** [sharp(imgBuffer)] *)
Definition sharp (imgBuffer : Buffer) : throws Sharp :=
  if sharp_accepts lib imgBuffer
  then Some {| input := imgBuffer; ops := [] |}
  else None.

(** [sharpInstance.m(args)]: the call is recorded on the instance, or
    throws. *)
Definition call (sharpInstance : Sharp) (o : op) : throws Sharp :=
  if accepts lib sharpInstance o
  then Some {| input := input sharpInstance;
               ops := ops sharpInstance ++ [o] |}
  else None.

(** [if (c) { sharpInstance = sharpInstance.m(args); }] *)
Definition when (c : bool) (sharpInstance : Sharp) (o : op) :
  throws Sharp :=
  if c then call sharpInstance o else Some sharpInstance.

Definition defined {A : Type} (x : optional A) : bool :=
  match x with
  | None => false
  | Some _ => true
  end.

(** [x !== undefined && x > 0] *)
Definition positive (x : optional number) : bool :=
  match x with
  | None => false
  | Some q => gt q 0%Q
  end.

(** The body of the [try] block up to, and excluding, [toBuffer()]. *)
Definition build (body : Body) : throws Sharp :=
  let format := default "jpeg"%string (format body) in
  let quality := default (90 # 1)%Q (quality body) in
  let width := width body in
  let height := height body in
  let rotate := rotate body in
  let filters := default no_filters (filters body) in
  let imgBuffer := Buffer_from_base64 lib (default EmptyString (image body)) in
  sharpInstance <- sharp imgBuffer ;;
  (* Apply resize if specified *)
  sharpInstance <-
    when (truthy_number width || truthy_number height) sharpInstance
      (Resize width height
         {| fit := "inside"; withoutEnlargement := true |}) ;;
  (* Apply rotation if specified *)
  sharpInstance <-
    when (truthy_number rotate) sharpInstance
      (Rotate rotate) ;;
  (* Apply filters *)
  sharpInstance <-
    when (defined (brightness filters)) sharpInstance
      (Modulate (brightness filters) None) ;;
  sharpInstance <-
    when (defined (saturation filters)) sharpInstance
      (Modulate None (saturation filters)) ;;
  sharpInstance <-
    when (defined (contrast filters)) sharpInstance
      (Linear (contrast filters) 0%Q) ;;
  sharpInstance <-
    match blur filters with
    | Some filters_blur =>
        when (gt filters_blur 0%Q) sharpInstance
          (* Sharp requires blur sigma to be between 0.3 and 1000 *)
          (let blurValue :=
             Math_max (3 # 10)%Q (Math_min (1000 # 1)%Q filters_blur) in
           Blur blurValue)
    | None => Some sharpInstance
    end ;;
  sharpInstance <-
    when (positive (sharpen filters)) sharpInstance
      (Sharpen (sharpen filters)) ;;
  (* Apply output format *)
  if String.eqb format "png" then call sharpInstance (Png quality)
  else if String.eqb format "webp" then call sharpInstance (Webp quality)
  else call sharpInstance (Jpeg quality).

Definition POST (body : Body) : Response :=
  if negb (truthy_string (image body)) then
    {| status := 400; payload := JsonError "No image data provided" |}
  else
    match (sharpInstance <- build body ;; toBuffer lib sharpInstance) with
    | Some processedBuffer =>
        (* Return base64 encoded image *)
        let base64Image := Buffer_toString_base64 lib processedBuffer in
        {| status := 200; payload := PlainText base64Image |}
    | None =>
        {| status := 500; payload := JsonError "Failed to process image" |}
    end.

End Handler.

(** The argument of the blur call for a given [filters.blur]. *)
Definition blur_calls (b : optional number) : list op :=
  match b with
  | Some filters_blur =>
      if gt filters_blur 0%Q
      then [Blur (Math_max (3 # 10)%Q (Math_min (1000 # 1)%Q filters_blur))]
      else []
  | None => []
  end.

(** The encoder call for a given [format] and [quality]. *)
Definition encoder (format : string) (quality : number) : op :=
  if String.eqb format "png" then Png quality
  else if String.eqb format "webp" then Webp quality
  else Jpeg quality.

(** The calls made before the encoder, when none of them throws. *)
Definition adjustments (body : Body) : list op :=
  let f := default no_filters (filters body) in
  ((if truthy_number (width body) || truthy_number (height body)
    then [Resize (width body) (height body)
            {| fit := "inside"; withoutEnlargement := true |}]
    else []) ++
   (if truthy_number (rotate body) then [Rotate (rotate body)] else []) ++
   (if defined (brightness f) then [Modulate (brightness f) None] else []) ++
   (if defined (saturation f) then [Modulate None (saturation f)] else []) ++
   (if defined (contrast f) then [Linear (contrast f) 0%Q] else []) ++
   blur_calls (blur f) ++
   (if positive (sharpen f) then [Sharpen (sharpen f)] else []))%list.

Definition planned (body : Body) : list op :=
  (adjustments body ++
   [encoder (default "jpeg"%string (format body))
      (default (90 # 1)%Q (quality body))])%list.

End Convert.

(** ** The resize primitive of the image library *)

(** The handler only asks for a resize; the dimensions that result are
    computed by the image library, whose code is not in the repository.
    The definitions of this module follow the specification's description
    of that primitive. *)

Module Geometry.

Local Open Scope Q_scope.







End Geometry.

(** ** The batch converter *)

Module Batch.

Local Open Scope list_scope.

(** A browser [File]: [data] is the base64 text of its content, which is
    what follows the comma in the result of [readAsDataURL]. *)
Record File := {
  name : string;
  type : string;
  data : string
}.

Inductive Status : Type :=
| Pending
| Processing
| Completed
| Error.

(** The identifier [`${Date.now()}-${index}`], kept as its two parts. *)
Record Id := {
  stamp : Z;
  index : nat
}.

Definition Id_eqb (a b : Id) : bool :=
  (stamp a =? stamp b) && Nat.eqb (index a) (index b).

Record BatchFile := {
  id : Id;
  file : File;
  preview : string;
  status : Status;
  result : optional string;
  error : optional string
}.

Record BatchSettings := {
  format : string;
  quality : number;
  width : optional number;
  height : optional number;
  maintainAspectRatio : bool
}.

(** The [onChange] handlers of the settings panel, as updates of the
    previous settings. *)
Inductive SettingsChange : Type :=
| set_format (value : string)
| set_quality (value : number)
| set_width (value : number)
| set_height (value : number)
| set_maintainAspectRatio (checked : bool).

(** [Number(e.target.value) || undefined] *)
Definition or_undefined (value : number) : optional number :=
  if truthy_number (Some value) then Some value else None.

Definition change (c : SettingsChange) (prev : BatchSettings) :
  BatchSettings :=
  match c with
  | set_format v =>
      {| format := v; quality := quality prev; width := width prev;
         height := height prev;
         maintainAspectRatio := maintainAspectRatio prev |}
  | set_quality v =>
      {| format := format prev; quality := v; width := width prev;
         height := height prev;
         maintainAspectRatio := maintainAspectRatio prev |}
  | set_width v =>
      {| format := format prev; quality := quality prev;
         width := or_undefined v; height := height prev;
         maintainAspectRatio := maintainAspectRatio prev |}
  | set_height v =>
      {| format := format prev; quality := quality prev;
         width := width prev; height := or_undefined v;
         maintainAspectRatio := maintainAspectRatio prev |}
  | set_maintainAspectRatio b =>
      {| format := format prev; quality := quality prev;
         width := width prev; height := height prev;
         maintainAspectRatio := b |}
  end.

(** One call of [processAllFiles] that has not returned yet.  The closure
    it runs in belongs to the render in which the button was clicked, so
    the [files] it iterates over and the [settings] that [processFile]
    reads are the values of that render.  [remaining] is what the
    [for ... of] loop has still to visit; [awaiting] is the file whose
    [processFile] promise the loop is waiting for.  [run] is the ordinal of
    the call; it only labels the history below. *)
Record Invocation := {
  run : nat;
  captured_settings : BatchSettings;
  remaining : list BatchFile;
  awaiting : option BatchFile
}.

(** The component: its three pieces of React state, the calls of
    [processAllFiles] in progress, and a history of the request bodies
    sent so far, each with the ordinal of the call that sent it.  The
    history is not program state; statements about whole runs refer to
    it. *)
Record Component := {
  files : list BatchFile;
  settings : BatchSettings;
  isProcessing : bool;
  running : list Invocation;
  runs : nat;
  sent : list (nat * Convert.Body)
}.

Definition initial : Component :=
  {| files := [];
     settings := {| format := "webp"; quality := (85 # 1)%Q;
                    width := None; height := None;
                    maintainAspectRatio := true |};
     isProcessing := false;
     running := [];
     runs := 0%nat;
     sent := [] |}.

(** What can happen to the component. *)
Inductive Event : Type :=
| handleFileSelect (selectedFiles : list File) (Date_now : nat -> Z)
| removeFile (target : Id)
| setSettings (c : SettingsChange)
| processAllFiles
| processFile_begin (k : nat)
| processFile_settle (k : nat)
| processAllFiles_return (k : nat).

Definition with_status (st : Status) (f : BatchFile) : BatchFile :=
  {| id := id f; file := file f; preview := preview f; status := st;
     result := result f; error := error f |}.

(** [{ ...f, status: 'completed', result: processedBase64 }] *)
Definition completed_with (processedBase64 : string) (f : BatchFile) :
  BatchFile :=
  {| id := id f; file := file f; preview := preview f;
     status := Completed; result := Some processedBase64;
     error := error f |}.

(** [{ ...f, status: 'error', error: 'Failed to process' }] *)
Definition failed (f : BatchFile) : BatchFile :=
  {| id := id f; file := file f; preview := preview f; status := Error;
     result := result f; error := Some "Failed to process"%string |}.

(** [response.ok] *)
Definition ok (response : Convert.Response) : bool :=
  (200 <=? Convert.status response) && (Convert.status response <=? 299).

Definition quote : string := String (ascii_of_nat 34) EmptyString.

(** [await response.text()] *)
Definition text (response : Convert.Response) : string :=
  match Convert.payload response with
  | Convert.PlainText t => t
  | Convert.JsonError e =>
      ("{" ++ quote ++ "error" ++ quote ++ ":" ++ quote ++ e ++ quote
       ++ "}")%string
  end.

(** The body [processFile] posts for a file. *)
Definition request (settings : BatchSettings) (batchFile : BatchFile) :
  Convert.Body :=
  let base64 := data (file batchFile) in
  {| Convert.image := Some base64;
     Convert.format := Some (format settings);
     Convert.quality := Some (quality settings);
     Convert.width := width settings;
     Convert.height := height settings;
     Convert.rotate := None;
     Convert.filters := None |}.

Section Environment.

(** [fetch('/api/convert', ...)]: the response, or [None] when the
    promise rejects. *)
Variable fetch : Convert.Body -> option Convert.Response.

Variable createObjectURL : File -> string.

(** The [forEach] of [handleFileSelect], from position [index] on. *)
Fixpoint newFiles (Date_now : nat -> Z) (index : nat)
  (selectedFiles : list File) : list BatchFile :=
  match selectedFiles with
  | [] => []
  | file :: rest =>
      if String.prefix "image/" (type file) then
        {| id := {| stamp := Date_now index; index := index |};
           file := file;
           preview := createObjectURL file;
           status := Pending;
           result := None;
           error := None |} :: newFiles Date_now (S index) rest
      else newFiles Date_now (S index) rest
  end.

(** The updater [processFile] hands to [setFiles] once the request for
    [batchFile] has settled. *)
Definition settled (settings : BatchSettings) (batchFile : BatchFile)
  (prev : list BatchFile) : list BatchFile :=
  match fetch (request settings batchFile) with
  | Some response =>
      if ok response then
        let processedBase64 := text response in
        map (fun f => if Id_eqb (id f) (id batchFile)
                      then completed_with processedBase64 f else f) prev
      else
        map (fun f => if Id_eqb (id f) (id batchFile)
                      then failed f else f) prev
  | None =>
      map (fun f => if Id_eqb (id f) (id batchFile)
                    then failed f else f) prev
  end.

Fixpoint replace {A : Type} (k : nat) (x : A) (l : list A) : list A :=
  match l, k with
  | [], _ => []
  | _ :: rest, O => x :: rest
  | y :: rest, S k' => y :: replace k' x rest
  end.

Fixpoint drop {A : Type} (k : nat) (l : list A) : list A :=
  match l, k with
  | [], _ => []
  | _ :: rest, O => rest
  | y :: rest, S k' => y :: drop k' rest
  end.

(** One event; [None] when the event cannot happen in this state (the
    button is disabled, or the call addressed is not at that point). *)
Definition step (s : Component) (e : Event) : option Component :=
  match e with
  | handleFileSelect selectedFiles Date_now =>
      Some {| files := files s ++ newFiles Date_now 0 selectedFiles;
              settings := settings s;
              isProcessing := isProcessing s;
              running := running s;
              runs := runs s;
              sent := sent s |}
  | removeFile target =>
      (* disabled={isProcessing}; the preview URL is revoked, which
         leaves the state alone *)
      if isProcessing s then None
      else
        Some {| files :=
                  filter (fun f => negb (Id_eqb (id f) target)) (files s);
                settings := settings s;
                isProcessing := isProcessing s;
                running := running s;
                runs := runs s;
                sent := sent s |}
  | setSettings c =>
      Some {| files := files s;
              settings := change c (settings s);
              isProcessing := isProcessing s;
              running := running s;
              runs := runs s;
              sent := sent s |}
  | processAllFiles =>
      (* disabled={files.length === 0 || isProcessing} *)
      if (Nat.eqb (List.length (files s)) 0 || isProcessing s)%bool then None
      else
        Some {| (* Update all files to processing status *)
                files := map (with_status Processing) (files s);
                settings := settings s;
                isProcessing := true;
                running :=
                  running s ++
                  [{| run := S (runs s);
                      captured_settings := settings s;
                      remaining := files s;
                      awaiting := None |}];
                runs := S (runs s);
                sent := sent s |}
  | processFile_begin k =>
      match nth_error (running s) k with
      | Some {| run := r; captured_settings := st;
                remaining := file :: rest; awaiting := None |} =>
          Some {| files := files s;
                  settings := settings s;
                  isProcessing := isProcessing s;
                  running :=
                    replace k
                      {| run := r; captured_settings := st;
                         remaining := rest; awaiting := Some file |}
                      (running s);
                  runs := runs s;
                  sent := sent s ++ [(r, request st file)] |}
      | _ => None
      end
  | processFile_settle k =>
      match nth_error (running s) k with
      | Some {| run := r; captured_settings := st;
                remaining := rest; awaiting := Some file |} =>
          Some {| files := settled st file (files s);
                  settings := settings s;
                  isProcessing := isProcessing s;
                  running :=
                    replace k
                      {| run := r; captured_settings := st;
                         remaining := rest; awaiting := None |}
                      (running s);
                  runs := runs s;
                  sent := sent s |}
      | _ => None
      end
  | processAllFiles_return k =>
      match nth_error (running s) k with
      | Some {| remaining := []; awaiting := None |} =>
          Some {| files := files s;
                  settings := settings s;
                  isProcessing := false;
                  running := drop k (running s);
                  runs := runs s;
                  sent := sent s |}
      | _ => None
      end
  end.

(** A sequence of events, from a given state. *)
Fixpoint exec (s : Component) (events : list Event) : option Component :=
  match events with
  | [] => Some s
  | e :: rest =>
      match step s e with
      | Some s' => exec s' rest
      | None => None
      end
  end.


(** The number of files shown as "Processing...". *)
Definition processing_count (s : Component) : nat :=
  List.length (filter (fun f => match status f with
                           | Processing => true
                           | _ => false
                           end) (files s)).

End Environment.

End Batch.

(** ** A library instance to run the model on *)

Module Demo.

(** Input that starts with the bytes of "IMG" stands for a readable
    image; anything else stands for corrupt bytes. *)
Definition decodable (b : Convert.Buffer) : bool :=
  match b with
  | x49 :: x4d :: x47 :: _ => true
  | _ => false
  end.

(** Every builder call is taken; rendering returns a readable input as it
    is and rejects a corrupt one.  Base64 is left out: text and bytes
    correspond character by character. *)
Definition lib : Convert.SharpModule :=
  {| Convert.Buffer_from_base64 := list_byte_of_string;
     Convert.Buffer_toString_base64 := string_of_list_byte;
     Convert.sharp_accepts := fun _ => true;
     Convert.accepts := fun _ _ => true;
     Convert.toBuffer :=
       fun s => if decodable (Convert.input s)
                then Some (Convert.input s) else None |}.


(** The network delivers every request to the endpoint. *)
Definition fetch (body : Convert.Body) : option Convert.Response :=
  Some (Convert.POST lib body).

Definition createObjectURL (f : Batch.File) : string :=
  ("blob:" ++ Batch.name f)%string.

Definition body (image : string) : Convert.Body :=
  {| Convert.image := Some image; Convert.format := None;
     Convert.quality := None; Convert.width := None;
     Convert.height := None; Convert.rotate := None;
     Convert.filters := None |}.

End Demo.

(** ** Vocabulary of the statements *)

Module Stages.

Import Convert.

(** The position of a call in the sequence of the handler's statements:
    resize, rotation, brightness, saturation, contrast, blur, sharpen,
    output format. *)
Definition stage (o : op) : Z :=
  match o with
  | Resize _ _ _ => 0
  | Rotate _ => 1
  | Modulate (Some _) _ => 2
  | Modulate None _ => 3
  | Linear _ _ => 4
  | Blur _ => 5
  | Sharpen _ => 6
  | Png _ | Webp _ | Jpeg _ => 7
  end.

(** The position of a call in the order the specification gives: rotation,
    then colour and blur adjustments, then resize, then encoding. *)
Definition spec_stage (o : op) : Z :=
  match o with
  | Rotate _ => 1
  | Modulate _ _ | Linear _ _ | Blur _ | Sharpen _ => 2
  | Resize _ _ _ => 3
  | Png _ | Webp _ | Jpeg _ => 4
  end.

(** Calls made in a given order of stages. *)
Definition ordered_by (rank : op -> Z) (calls : list op) : Prop :=
  StronglySorted (fun a b => rank a <= rank b) calls.

Definition strictly_ordered_by (rank : op -> Z) (calls : list op) : Prop :=
  StronglySorted (fun a b => rank a < rank b) calls.

Definition is_blur (o : op) : bool :=
  match o with
  | Blur _ => true
  | _ => false
  end.

Definition is_encoder (o : op) : bool :=
  match o with
  | Png _ | Webp _ | Jpeg _ => true
  | _ => false
  end.

(** [filters.blur] of a body, with the default [filters = {}]. *)
Definition blur_of (body : Body) : optional number :=
  blur (default no_filters (filters body)).





(** A response that reports an error. *)
Definition is_error (r : Response) : Prop :=
  exists message, payload r = JsonError message.


Definition with_quality (q : number) (body : Body) : Body :=
  {| image := image body; format := format body; quality := Some q;
     width := width body; height := height body; rotate := rotate body;
     filters := filters body |}.

Definition with_format (f : string) (body : Body) : Body :=
  {| image := image body; format := Some f; quality := quality body;
     width := width body; height := height body; rotate := rotate body;
     filters := filters body |}.

Definition with_filters (f : optional Filters) (body : Body) : Body :=
  {| image := image body; format := format body; quality := quality body;
     width := width body; height := height body; rotate := rotate body;
     filters := f |}.

(** C9 as the specification states it for png: the quality value has no
    influence on what the handler asks of the library. *)
Definition png_disregards_quality : Prop :=
  forall (lib : SharpModule) (body : Body) (q1 q2 : number),
    format body = Some "png"%string ->
    build lib (with_quality q1 body) = build lib (with_quality q2 body).


Definition only_blur (b : optional number) : Filters :=
  {| brightness := None; saturation := None; contrast := None;
     blur := b; sharpen := None |}.

End Stages.

(** ** Vocabulary of the statements about the batch converter *)

Module Runs.

Import Batch.
Local Open Scope list_scope.

Definition ids (l : list BatchFile) : list Id := map id l.

(** The files a call of [processAllFiles] has not finished with: the one
    it is waiting for, and those the loop has still to visit. *)
Definition waiting (i : Invocation) : list BatchFile :=
  match awaiting i with
  | Some f => f :: remaining i
  | None => remaining i
  end.

(** A request body carries the given settings. *)
Definition carries (st : BatchSettings) (b : Convert.Body) : Prop :=
  Convert.format b = Some (format st) /\
  Convert.quality b = Some (quality st) /\
  Convert.width b = width st /\
  Convert.height b = height st.

(** Two request bodies were built from the same settings. *)
Definition agree (b1 b2 : Convert.Body) : Prop :=
  Convert.format b1 = Convert.format b2 /\
  Convert.quality b1 = Convert.quality b2 /\
  Convert.width b1 = Convert.width b2 /\
  Convert.height b1 = Convert.height b2.

(** What holds of a call in progress [i] in a state [s]. *)
Record consistent (s : Component) (i : Invocation) : Prop := {
  waiting_enrolled :
    forall f, In f (waiting i) -> In (id f) (ids (files s));
  waiting_distinct :
    NoDup (ids (files s)) -> NoDup (ids (waiting i));
  waiting_processing :
    NoDup (ids (files s)) ->
    forall f g, In f (waiting i) -> In g (files s) -> id g = id f ->
                status g = Processing;
  run_current : run i = runs s;
  sent_by_run :
    forall b, In (run i, b) (sent s) -> carries (captured_settings i) b
}.

Definition idle (s : Component) : Prop :=
  isProcessing s = false /\ running s = [].

Definition busy (s : Component) : Prop :=
  isProcessing s = true /\
  exists i, running s = [i] /\ consistent s i.

Definition invariant (s : Component) : Prop :=
  (idle s \/ busy s) /\
  (forall r b, In (r, b) (sent s) -> (r <= runs s)%nat) /\
  (forall r b1 b2, In (r, b1) (sent s) -> In (r, b2) (sent s) ->
                   agree b1 b2).



(** The events of one complete run over [n] files, nothing else
    happening in between. *)
Fixpoint loop (n : nat) : list Event :=
  match n with
  | O => [processAllFiles_return 0]
  | S n' => processFile_begin 0 :: processFile_settle 0 :: loop n'
  end.

Definition whole_run (n : nat) : list Event := processAllFiles :: loop n.

Section Environment.

Variable fetch : Convert.Body -> option Convert.Response.
Variable createObjectURL : File -> string.

(** The record of a file once its request, built from the given
    settings, has settled. *)
Definition converted (st : BatchSettings) (f : BatchFile) : BatchFile :=
  match fetch (request st f) with
  | Some response =>
      if ok response then completed_with (text response) f else failed f
  | None => failed f
  end.

(** What the updater of [processFile] makes of a file with the
    identifier of [batchFile]. *)
Definition finish (st : BatchSettings) (batchFile f : BatchFile) :
  BatchFile :=
  match fetch (request st batchFile) with
  | Some response =>
      if ok response then completed_with (text response) f else failed f
  | None => failed f
  end.



(** C8 as the specification states it. *)
Definition settings_are_read_only_during_a_run : Prop :=
  forall events s c,
    exec fetch createObjectURL initial events = Some s ->
    isProcessing s = true ->
    step fetch createObjectURL s (setSettings c) = None.

End Environment.

End Runs.

(** ** Concrete requests and files *)

Module Examples.

Import Convert.

(** An edit: target width 100, a quarter turn, brightness 1.5. *)
Definition edited : Body :=
  {| image := Some "IMGsource"%string;
     format := Some "jpeg"%string;
     quality := Some (90 # 1)%Q;
     width := Some (100 # 1)%Q;
     height := None;
     rotate := Some (90 # 1)%Q;
     filters := Some {| brightness := Some (3 # 2)%Q; saturation := None;
                        contrast := None; blur := None;
                        sharpen := None |} |}.

Definition edited_instance : Sharp :=
  {| input := list_byte_of_string "IMGsource";
     ops := [Resize (Some (100 # 1)%Q) None
               {| fit := "inside"; withoutEnlargement := true |};
             Rotate (Some (90 # 1)%Q);
             Modulate (Some (3 # 2)%Q) None;
             Jpeg (90 # 1)%Q] |}.





(** A request for a faint blur, below 0.3. *)
Definition faint_blur : Body :=
  Stages.with_filters (Some (Stages.only_blur (Some (1 # 10)%Q)))
    (Demo.body "IMGsource").

(** A request for png output. *)
Definition as_png : Body :=
  Stages.with_format "png" (Demo.body "IMGsource").


(** Three files; the content of the second is not a readable image. *)
Definition first_file : Batch.File :=
  {| Batch.name := "one.png"; Batch.type := "image/png";
     Batch.data := "IMGone" |}.

Definition second_file : Batch.File :=
  {| Batch.name := "two.png"; Batch.type := "image/png";
     Batch.data := "garbled" |}.

Definition third_file : Batch.File :=
  {| Batch.name := "three.png"; Batch.type := "image/png";
     Batch.data := "IMGthree" |}.

Definition clock (index : nat) : Z := 1700000000000.

Definition enroll_three : Batch.Event :=
  Batch.handleFileSelect [first_file; second_file; third_file] clock.

(** The state after the three files were selected. *)
Definition enrolled : Batch.Component :=
  {| Batch.files :=
       Batch.newFiles Demo.createObjectURL clock 0
         [first_file; second_file; third_file];
     Batch.settings := Batch.settings Batch.initial;
     Batch.isProcessing := false;
     Batch.running := [];
     Batch.runs := 0%nat;
     Batch.sent := [] |}.

(** The state a sequence of events leads to from the initial state (the
    initial state itself if the sequence cannot happen). *)
Definition after (events : list Batch.Event) : Batch.Component :=
  match Batch.exec Demo.fetch Demo.createObjectURL Batch.initial events with
  | Some s => s
  | None => Batch.initial
  end.

(** Three files selected, the run started. *)
Definition started : list Batch.Event :=
  [enroll_three; Batch.processAllFiles].

(** The same, the request for the first file sent. *)
Definition first_sent : list Batch.Event :=
  [enroll_three; Batch.processAllFiles; Batch.processFile_begin 0].

(** Three files selected and converted in one complete run. *)
Definition one_run : list Batch.Event :=
  enroll_three :: Runs.whole_run 3.

(** A run in which the format is changed to png after the first file. *)
Definition changed_midway : list Batch.Event :=
  [enroll_three; Batch.processAllFiles;
   Batch.processFile_begin 0; Batch.processFile_settle 0;
   Batch.setSettings (Batch.set_format "png");
   Batch.processFile_begin 0].

Definition nobody : Batch.BatchFile :=
  {| Batch.id := {| Batch.stamp := 0; Batch.index := 0 |};
     Batch.file := first_file; Batch.preview := EmptyString;
     Batch.status := Batch.Pending; Batch.result := None;
     Batch.error := None |}.

(** The first file shown in a state. *)
Definition first_of (s : Batch.Component) : Batch.BatchFile :=
  hd nobody (Batch.files s).

End Examples.

(** ** The batch converter: progress panel and downloads *)

Module Panel.

Import Batch.
Local Open Scope list_scope.

Definition is_completed (f : BatchFile) : bool :=
  match status f with
  | Completed => true
  | _ => false
  end.

Definition is_error (f : BatchFile) : bool :=
  match status f with
  | Error => true
  | _ => false
  end.

(** [files.filter(f => f.status === 'completed').length] *)
Definition completedCount (s : Component) : nat :=
  List.length (filter is_completed (files s)).

(** [files.filter(f => f.status === 'error').length] *)
Definition errorCount (s : Component) : nat :=
  List.length (filter is_error (files s)).

(** [name.split('.')[0]]: the characters before the first dot. *)
Fixpoint split_dot_0 (name : string) : string :=
  match name with
  | EmptyString => EmptyString
  | String c rest =>
      if Ascii.eqb c "."%char then EmptyString
      else String c (split_dot_0 rest)
  end.

Fixpoint has_dot (name : string) : bool :=
  match name with
  | EmptyString => false
  | String c rest => Ascii.eqb c "."%char || has_dot rest
  end.

(** What [link.click()] starts: a download of [href] under the name
    [download]. *)
Record Link := {
  href : string;
  download : string
}.

(** The link both download functions build for a file and its result. *)
Definition link (settings : BatchSettings) (file : BatchFile)
  (file_result : string) : Link :=
  {| href := ("data:image/" ++ format settings ++ ";base64,"
              ++ file_result)%string;
     download := (split_dot_0 (name (Batch.file file)) ++ "."
                  ++ format settings)%string |}.

(** [downloadSingle]: the links clicked, none or one. *)
Definition downloadSingle (settings : BatchSettings) (file : BatchFile) :
  list Link :=
  if (is_completed file && truthy_string (result file))%bool then
    [link settings file (default EmptyString (result file))]
  else [].

(** [downloadAll]: the links clicked by the [forEach], in order. *)
Fixpoint downloadAll_from (settings : BatchSettings)
  (files : list BatchFile) : list Link :=
  match files with
  | [] => []
  | file :: rest =>
      if (is_completed file && truthy_string (result file))%bool then
        link settings file (default EmptyString (result file))
        :: downloadAll_from settings rest
      else downloadAll_from settings rest
  end.

Definition downloadAll (s : Component) : list Link :=
  downloadAll_from (settings s) (files s).

End Panel.

(** ** More vocabulary for the batch converter *)

Module Runs2.

Import Batch Runs.
Local Open Scope list_scope.

(** [file.type.startsWith('image/')] *)
Definition is_image (f : File) : bool := String.prefix "image/" (type f).

(** What a file is, apart from its progress. *)
Definition identity (f : BatchFile) : Id * File * string :=
  (id f, file f, preview f).

(** The events of a run: all but the selection and the removal of
    files. *)
Definition keeps_files (e : Event) : bool :=
  match e with
  | handleFileSelect _ _ => false
  | removeFile _ => false
  | _ => true
  end.

(** Files shown as processing belong to the call in progress; without a
    call in progress none is shown as processing. *)
Definition processing_is_waited_for (s : Component) : Prop :=
  (isProcessing s = false /\ running s = [] /\
   forall g, In g (files s) -> status g <> Processing) \/
  (isProcessing s = true /\
   exists i, running s = [i] /\
     forall g, In g (files s) -> status g = Processing ->
               In (id g) (ids (waiting i))).

(** The settings panel never stores a zero width or height. *)
Definition dimensions_set_or_absent (st : BatchSettings) : Prop :=
  truthy_number (width st) = Convert.defined (width st) /\
  truthy_number (height st) = Convert.defined (height st).

(** The events that bring a call in progress to its end. *)
Definition rest_of_run (i : Invocation) : list Event :=
  match awaiting i with
  | Some _ => processFile_settle 0 :: loop (List.length (remaining i))
  | None => loop (List.length (remaining i))
  end.

(** Whether the request for a file, built from the given settings, is
    answered with [response.ok]. *)
Definition succeeds (fetch : Convert.Body -> option Convert.Response)
  (st : BatchSettings) (f : BatchFile) : bool :=
  match fetch (request st f) with
  | Some response => ok response
  | None => false
  end.

(** Two settings that differ in [maintainAspectRatio] at most. *)
Definition same_but_aspect (a b : BatchSettings) : Prop :=
  format a = format b /\ quality a = quality b /\
  width a = width b /\ height a = height b.

Definition calls_same_but_aspect (i j : Invocation) : Prop :=
  run i = run j /\ remaining i = remaining j /\
  awaiting i = awaiting j /\
  same_but_aspect (captured_settings i) (captured_settings j).

(** Two states of the component that differ at most in the value of
    [maintainAspectRatio], in the settings or in those a call in progress
    has captured. *)
Definition states_same_but_aspect (a b : Component) : Prop :=
  files a = files b /\ isProcessing a = isProcessing b /\
  runs a = runs b /\ sent a = sent b /\
  same_but_aspect (settings a) (settings b) /\
  Forall2 calls_same_but_aspect (running a) (running b).

(** Neither the settings, nor the settings a call in progress has
    captured, nor a request sent holds a width or height of zero. *)
Definition body_dimensions_set_or_absent (b : Convert.Body) : Prop :=
  truthy_number (Convert.width b) = Convert.defined (Convert.width b) /\
  truthy_number (Convert.height b) = Convert.defined (Convert.height b).

Definition no_zero_dimension (s : Component) : Prop :=
  dimensions_set_or_absent (settings s) /\
  (forall i, In i (running s) ->
             dimensions_set_or_absent (captured_settings i)) /\
  (forall r b, In (r, b) (sent s) -> body_dimensions_set_or_absent b).

(** A network that delivers every request to the endpoint, run with the
    given library. *)
Definition server (lib : Convert.SharpModule) (body : Convert.Body) :
  option Convert.Response :=
  Some (Convert.POST lib body).

End Runs2.

(** ** More vocabulary for the conversion endpoint *)

Module Calls.

Import Convert.

Definition is_resize (o : op) : bool :=
  match o with
  | Resize _ _ _ => true
  | _ => false
  end.

Definition is_rotate (o : op) : bool :=
  match o with
  | Rotate _ => true
  | _ => false
  end.

Definition is_sharpen (o : op) : bool :=
  match o with
  | Sharpen _ => true
  | _ => false
  end.

Definition is_colour (o : op) : bool :=
  match o with
  | Modulate _ _ | Linear _ _ => true
  | _ => false
  end.

Definition inside : ResizeOptions :=
  {| fit := "inside"; withoutEnlargement := true |}.

(** [filters] of a body, with the default [filters = {}]. *)
Definition filters_of (body : Body) : Filters :=
  default no_filters (filters body).

End Calls.

(** ** The image editor and the page that hosts it *)

Module Editor.

(** The crop rectangle the crop widget reports, in pixels of the image as
    displayed. *)
Module PixelCrop.

Record t := {
  x : number;
  y : number;
  width : number;
  height : number
}.

End PixelCrop.

(** The [img] element: the size of the picture and the size it is
    displayed at. *)
Module Img.

Record t := {
  naturalWidth : number;
  naturalHeight : number;
  width : number;
  height : number
}.

End Img.

(** The settings handed to [onSave]. *)
Module EditSettings.

Record t := {
  crop : optional PixelCrop.t;
  rotation : number;
  brightness : number;
  contrast : number;
  saturation : number;
  blur : number;
  format : string;
  quality : number;
  width : optional number;
  height : optional number
}.

End EditSettings.

(** The state of the editor that saving reads.  (The crop being dragged
    and the active tab play no part in it.) *)
Record State := {
  completedCrop : optional PixelCrop.t;
  rotation : number;
  brightness : number;
  contrast : number;
  saturation : number;
  blur : number;
  format : string;
  quality : number;
  width : optional number;
  height : optional number
}.

(** The state of a freshly opened editor. *)
Definition opened : State :=
  {| completedCrop := None;
     rotation := 0%Q;
     brightness := 1%Q;
     contrast := 1%Q;
     saturation := 1%Q;
     blur := 0%Q;
     format := "jpeg";
     quality := (90 # 1)%Q;
     width := None;
     height := None |}.

Definition resetFilters (st : State) : State :=
  {| completedCrop := completedCrop st;
     rotation := 0%Q;
     brightness := 1%Q;
     contrast := 1%Q;
     saturation := 1%Q;
     blur := 0%Q;
     format := format st;
     quality := quality st;
     width := width st;
     height := height st |}.

(** What is done to the hidden canvas, in order.  The filter is kept as
    its four values rather than as the text built from them. *)
Inductive CanvasCall : Type :=
| set_width (value : number)
| set_height (value : number)
| set_imageSmoothingQuality (value : string)
| set_filter (brightness contrast saturate blur : number)
| translate (x y : number)
| rotate (angle : number)
| drawImage (sx sy sw sh dx dy dw dh : number).

(** The canvas element: whether [getContext('2d')] gives a context. *)
Record Canvas := {
  has_context : bool
}.

(** What the editor uses from the browser: floating-point product and
    quotient, the constant pi, the value read back from [canvas.width] or
    [canvas.height] after an assignment, and the encoding of what has
    been drawn. *)
Record Browser := {
  times : number -> number -> number;
  over : number -> number -> number;
  Math_PI : number;
  stored : number -> number;
  toDataURL : list CanvasCall -> string -> number -> string
}.

(** [s.split(',')[1]]: what stands between the first comma and the next;
    undefined when there is no comma. *)
Fixpoint after_comma (s : string) : optional string :=
  match s with
  | EmptyString => None
  | String c rest =>
      if Ascii.eqb c ","%char then Some rest else after_comma rest
  end.

Fixpoint before_comma (s : string) : string :=
  match s with
  | EmptyString => EmptyString
  | String c rest =>
      if Ascii.eqb c ","%char then EmptyString
      else String c (before_comma rest)
  end.

Definition split_comma_1 (s : string) : optional string :=
  match after_comma s with
  | Some rest => Some (before_comma rest)
  | None => None
  end.

Section InBrowser.

Variable browser : Browser.

(** [drawCroppedImage]: the calls made on the canvas and the value
    returned, [None] for [null]. *)
Definition drawCroppedImage (st : State) (imgRef : option Img.t)
  (canvasRef : option Canvas) : list CanvasCall * option string :=
  match imgRef, canvasRef, completedCrop st with
  | Some image, Some canvas, Some completedCrop =>
      if negb (has_context canvas) then ([], None)
      else
        let scaleX :=
          over browser (Img.naturalWidth image) (Img.width image) in
        let scaleY :=
          over browser (Img.naturalHeight image) (Img.height image) in
        let canvas_width :=
          stored browser
            (times browser (PixelCrop.width completedCrop) scaleX) in
        let canvas_height :=
          stored browser
            (times browser (PixelCrop.height completedCrop) scaleY) in
        let calls :=
          ([set_width
              (times browser (PixelCrop.width completedCrop) scaleX);
            set_height
              (times browser (PixelCrop.height completedCrop) scaleY);
            set_imageSmoothingQuality "high";
            (* Apply filters *)
            set_filter (brightness st) (contrast st) (saturation st)
              (blur st)] ++
           (* Apply rotation *)
           (if negb (Qeq_bool (rotation st) 0%Q) then
              [translate (over browser canvas_width (2 # 1)%Q)
                 (over browser canvas_height (2 # 1)%Q);
               rotate
                 (over browser
                    (times browser (rotation st) (Math_PI browser))
                    (180 # 1)%Q);
               translate (over browser (- canvas_width)%Q (2 # 1)%Q)
                 (over browser (- canvas_height)%Q (2 # 1)%Q)]
            else []) ++
           [drawImage
              (times browser (PixelCrop.x completedCrop) scaleX)
              (times browser (PixelCrop.y completedCrop) scaleY)
              (times browser (PixelCrop.width completedCrop) scaleX)
              (times browser (PixelCrop.height completedCrop) scaleY)
              0%Q 0%Q canvas_width canvas_height])%list in
        (calls,
         Some (toDataURL browser calls ("image/" ++ format st)%string
                 (over browser (quality st) (100 # 1)%Q)))
  | _, _, _ => ([], None)
  end.

(** [handleSave]: the calls made on the canvas and, when [onSave] is
    called, its two arguments. *)
Definition handleSave (st : State) (imgRef : option Img.t)
  (canvasRef : option Canvas) :
  list CanvasCall * option (optional string * EditSettings.t) :=
  let (calls, croppedImageData) :=
    drawCroppedImage st imgRef canvasRef in
  if truthy_string croppedImageData then
    let settings :=
      {| EditSettings.crop := completedCrop st;
         EditSettings.rotation := rotation st;
         EditSettings.brightness := brightness st;
         EditSettings.contrast := contrast st;
         EditSettings.saturation := saturation st;
         EditSettings.blur := blur st;
         EditSettings.format := format st;
         EditSettings.quality := quality st;
         EditSettings.width := width st;
         EditSettings.height := height st |} in
    (* Convert data URL to base64 *)
    let base64Data :=
      split_comma_1 (default EmptyString croppedImageData) in
    (calls, Some (base64Data, settings))
  else (calls, None).

End InBrowser.

End Editor.

Module Home.

(** The body [handleEditorSave] posts. *)
Definition handleEditorSave_body (editedImageData : optional string)
  (settings : Editor.EditSettings.t) : Convert.Body :=
  {| Convert.image := editedImageData;
     Convert.format := Some (Editor.EditSettings.format settings);
     Convert.quality := Some (Editor.EditSettings.quality settings);
     Convert.width := Editor.EditSettings.width settings;
     Convert.height := Editor.EditSettings.height settings;
     Convert.rotate := Some (Editor.EditSettings.rotation settings);
     Convert.filters :=
       Some {| Convert.brightness :=
                 Some (Editor.EditSettings.brightness settings);
               Convert.saturation :=
                 Some (Editor.EditSettings.saturation settings);
               Convert.contrast :=
                 Some (Editor.EditSettings.contrast settings);
               Convert.blur := Some (Editor.EditSettings.blur settings);
               Convert.sharpen := None |} |}.

(** The body [handleQuickConvert] posts for the file chosen. *)
Definition handleQuickConvert_body (originalFile : Batch.File) :
  Convert.Body :=
  let base64 := Batch.data originalFile in
  {| Convert.image := Some base64;
     Convert.format := Some "jpeg"%string;
     Convert.quality := Some (90 # 1)%Q;
     Convert.width := Some (800 # 1)%Q;
     Convert.height := None;
     Convert.rotate := None;
     Convert.filters := None |}.

(** The name [handleQuickConvert] gives the download. *)
Definition handleQuickConvert_download (originalFile : Batch.File) :
  string :=
  ("converted_" ++ Panel.split_dot_0 (Batch.name originalFile)
   ++ ".jpg")%string.

(** The request a click on "Save Changes" leads to, if any, with the
    calls made on the canvas before. *)
Definition save_request (browser : Editor.Browser) (st : Editor.State)
  (imgRef : option Editor.Img.t) (canvasRef : option Editor.Canvas) :
  list Editor.CanvasCall * option Convert.Body :=
  match Editor.handleSave browser st imgRef canvasRef with
  | (calls, Some (editedImageData, settings)) =>
      (calls, Some (handleEditorSave_body editedImageData settings))
  | (calls, None) => (calls, None)
  end.

End Home.

(** ** More concrete requests, states and editors *)

Module Examples2.

Import Convert.

(** The instance the handler builds for a body with the library of
    [Demo] (an empty one if a call throws). *)
Definition built (body : Body) : Sharp :=
  match build Demo.lib body with
  | Some s => s
  | None => {| input := []; ops := [] |}
  end.

Definition with_sharpen (v : number) : Filters :=
  {| brightness := None; saturation := None; contrast := None;
     blur := None; sharpen := Some v |}.


(** A sharpen above any range. *)
Definition heavy_sharpen : Body :=
  Stages.with_filters (Some (with_sharpen (5000 # 1)%Q))
    (Demo.body "IMGsource").

(** A width of zero next to a height, and more than a full turn. *)
Definition zero_width : Body :=
  {| image := Some "IMGsource"%string; format := None; quality := None;
     width := Some 0%Q; height := Some (100 # 1)%Q;
     rotate := Some (540 # 1)%Q; filters := None |}.

(** Brightness zero, a negative saturation, contrast zero. *)
Definition dark : Body :=
  Stages.with_filters
    (Some {| brightness := Some 0%Q; saturation := Some (-1 # 1)%Q;
             contrast := Some 0%Q; blur := None; sharpen := None |})
    (Demo.body "IMGsource").

(** A run over three files in which the checkbox is unticked after the
    start. *)
Definition unticked_midway : list Batch.Event :=
  (Examples.started ++
   Batch.setSettings (Batch.set_maintainAspectRatio false)
   :: Runs.loop 3)%list.

(** A browser to run the editor in: exact arithmetic, 355/113 for pi,
    canvas sizes cut to whole numbers, and one and the same picture as
    the outcome of every drawing. *)
Definition browser : Editor.Browser :=
  {| Editor.times := Qmult;
     Editor.over := Qdiv;
     Editor.Math_PI := (355 # 113)%Q;
     Editor.stored := fun q => inject_Z (Qfloor q);
     Editor.toDataURL :=
       fun _ type _ => ("data:" ++ type ++ ";base64,IMGedited")%string |}.

Definition picture : Editor.Img.t :=
  {| Editor.Img.naturalWidth := (800 # 1)%Q;
     Editor.Img.naturalHeight := (600 # 1)%Q;
     Editor.Img.width := (400 # 1)%Q;
     Editor.Img.height := (300 # 1)%Q |}.

Definition canvas : Editor.Canvas := {| Editor.has_context := true |}.

(** An editor with a crop completed, a quarter turn and more
    brightness. *)
Definition tilted : Editor.State :=
  {| Editor.completedCrop :=
       Some {| Editor.PixelCrop.x := (10 # 1)%Q;
               Editor.PixelCrop.y := (20 # 1)%Q;
               Editor.PixelCrop.width := (200 # 1)%Q;
               Editor.PixelCrop.height := (100 # 1)%Q |};
     Editor.rotation := (90 # 1)%Q;
     Editor.brightness := (3 # 2)%Q;
     Editor.contrast := 1%Q;
     Editor.saturation := 1%Q;
     Editor.blur := 0%Q;
     Editor.format := "png";
     Editor.quality := (80 # 1)%Q;
     Editor.width := None;
     Editor.height := None |}.

(** The canvas calls and the request of a save in a given editor. *)
Definition saved_calls (st : Editor.State) : list Editor.CanvasCall :=
  fst (Home.save_request browser st (Some picture) (Some canvas)).

Definition saved_body (st : Editor.State) : Body :=
  match snd (Home.save_request browser st (Some picture) (Some canvas))
  with
  | Some body => body
  | None => Demo.body EmptyString
  end.

End Examples2.

(** * Properties of the conversion endpoint *)

Section ConvertFacts.

Import Convert.

Variable lib : SharpModule.

Lemma bind_Some {A B : Type} (m : throws A) (k : A -> throws B) (b : B) :
  bind m k = Some b -> exists a, m = Some a /\ k a = Some b.
Proof.
  destruct m as [a|]; simpl; intros H; [eauto | discriminate].
Qed.

Lemma call_Some (s s' : Sharp) (o : op) :
  call lib s o = Some s' ->
  ops s' = (ops s ++ [o])%list /\ input s' = input s.
Proof.
  unfold call. destruct (accepts lib s o); intros H; inversion H; auto.
Qed.

Lemma when_Some (c : bool) (s s' : Sharp) (o : op) :
  when lib c s o = Some s' ->
  ops s' = (ops s ++ if c then [o] else [])%list /\ input s' = input s.
Proof.
  unfold when. destruct c.
  - apply call_Some.
  - intros H; inversion H; subst. rewrite app_nil_r. auto.
Qed.

Lemma build_planned (body : Body) (s : Sharp) :
  build lib body = Some s ->
  ops s = planned body /\
  input s = Buffer_from_base64 lib (default EmptyString (image body)).
Proof.
  unfold build. intros H.
  apply bind_Some in H. destruct H as [s0 [H0 H]].
  unfold sharp in H0.
  destruct (sharp_accepts lib _); [|discriminate].
  inversion H0 as [E0]; clear H0.
  apply bind_Some in H. destruct H as [s1 [H1 H]].
  apply when_Some in H1. destruct H1 as [O1 I1].
  apply bind_Some in H. destruct H as [s2 [H2 H]].
  apply when_Some in H2. destruct H2 as [O2 I2].
  apply bind_Some in H. destruct H as [s3 [H3 H]].
  apply when_Some in H3. destruct H3 as [O3 I3].
  apply bind_Some in H. destruct H as [s4 [H4 H]].
  apply when_Some in H4. destruct H4 as [O4 I4].
  apply bind_Some in H. destruct H as [s5 [H5 H]].
  apply when_Some in H5. destruct H5 as [O5 I5].
  apply bind_Some in H. destruct H as [s6 [H6 H]].
  assert (B6 : ops s6 = (ops s5 ++ blur_calls
                           (blur (default no_filters (filters body))))%list
               /\ input s6 = input s5).
  { unfold blur_calls.
    destruct (blur (default no_filters (filters body))) as [b|].
    - apply when_Some in H6. exact H6.
    - inversion H6; subst. rewrite app_nil_r. auto. }
  destruct B6 as [O6 I6].
  apply bind_Some in H. destruct H as [s7 [H7 H]].
  apply when_Some in H7. destruct H7 as [O7 I7].
  assert (E : ops s = (ops s7 ++
              [encoder (default "jpeg"%string (format body))
                 (default (90 # 1)%Q (quality body))])%list
              /\ input s = input s7).
  { unfold encoder.
    destruct (String.eqb _ "png"); [apply call_Some; exact H|].
    destruct (String.eqb _ "webp"); apply call_Some; exact H. }
  destruct E as [OE IE].
  split.
  - unfold planned, adjustments.
    rewrite OE, O7, O6, O5, O4, O3, O2, O1, <- E0. simpl.
    repeat rewrite <- app_assoc. reflexivity.
  - rewrite IE, I7, I6, I5, I4, I3, I2, I1, <- E0. reflexivity.
Qed.

End ConvertFacts.

(** ** The order of the stages *)

Section StageOrder.

Import Convert Stages.

Lemma strictly_ordered_snoc (rank : op -> Z) (l : list op) (o : op) :
  strictly_ordered_by rank l ->
  Forall (fun a => rank a < rank o) l ->
  strictly_ordered_by rank (l ++ [o]).
Proof.
  unfold strictly_ordered_by. induction l as [|a l IH]; simpl; intros S F.
  - repeat constructor.
  - inversion S as [|? ? S' Fa]; subst. inversion F as [|? ? Ha F']; subst.
    constructor.
    + apply IH; assumption.
    + apply Forall_app. split; [assumption | repeat constructor; assumption].
Qed.

(** Appending a segment whose calls all sit at stage [n] to calls that all
    sit below [n]; the segment holds one call at most. *)
Lemma strictly_ordered_segment (l seg : list op) (n : Z) :
  strictly_ordered_by stage l /\ Forall (fun a => stage a < n) l ->
  (seg = [] \/ exists o, seg = [o] /\ stage o = n) ->
  strictly_ordered_by stage (l ++ seg) /\
  Forall (fun a => stage a < n + 1) (l ++ seg).
Proof.
  intros [S F] [E | [o [E Ho]]]; subst seg.
  - rewrite app_nil_r. split; [assumption|].
    eapply Forall_impl; [|exact F]. simpl; intros; lia.
  - split.
    + apply strictly_ordered_snoc; [assumption|].
      eapply Forall_impl; [|exact F]. simpl; intros; lia.
    + apply Forall_app. split.
      * eapply Forall_impl; [|exact F]. simpl; intros; lia.
      * repeat constructor. lia.
Qed.

Ltac segment :=
  first [ left; reflexivity | right; eexists; split; reflexivity ].

Lemma adjustments_ordered (body : Body) :
  strictly_ordered_by stage (adjustments body) /\
  Forall (fun a => stage a < 7) (adjustments body).
Proof.
  unfold adjustments.
  set (f := default no_filters (filters body)).
  rewrite <- (app_nil_l (_ ++ _)).
  repeat rewrite app_assoc.
  apply (strictly_ordered_segment _ _ 6).
  apply (strictly_ordered_segment _ _ 5).
  apply (strictly_ordered_segment _ _ 4).
  apply (strictly_ordered_segment _ _ 3).
  apply (strictly_ordered_segment _ _ 2).
  apply (strictly_ordered_segment _ _ 1).
  apply (strictly_ordered_segment _ _ 0).
  - split; constructor.
  - destruct (_ || _); segment.
  - destruct (truthy_number _); segment.
  - destruct (brightness f); simpl; segment.
  - destruct (saturation f); simpl; segment.
  - destruct (contrast f); simpl; segment.
  - unfold blur_calls. destruct (blur f) as [b|]; [|segment].
    destruct (gt b 0%Q); segment.
  - destruct (positive _); segment.
Qed.

Lemma encoder_stage (format : string) (quality : number) :
  stage (encoder format quality) = 7.
Proof.
  unfold encoder. destruct (String.eqb _ "png"); [reflexivity|].
  destruct (String.eqb _ "webp"); reflexivity.
Qed.

(** C1, as the code has it.  Whenever the handler gets through its builder
    calls, the calls were made in the order of its statements: resize
    first, then rotation, brightness, saturation, contrast, blur, sharpen,
    each at most once, and last exactly one output-format call.  There is
    no crop call, and resize comes before the adjustments, not after. *)
Theorem C1_calls_follow_statement_order
  (lib : SharpModule) (body : Body) (s : Sharp)
  (Hbuild : build lib body = Some s) :
  strictly_ordered_by stage (ops s) /\
  exists before e,
    ops s = (before ++ [e])%list /\
    is_encoder e = true /\
    Forall (fun o => is_encoder o = false) before.
Proof.
  apply build_planned in Hbuild. destruct Hbuild as [Hops _].
  rewrite Hops. unfold planned.
  destruct (adjustments_ordered body) as [S F].
  split.
  - apply strictly_ordered_snoc; [assumption|].
    rewrite encoder_stage. exact F.
  - exists (adjustments body). eexists. split; [reflexivity|]. split.
    + unfold encoder. destruct (String.eqb _ "png"); [reflexivity|].
      destruct (String.eqb _ "webp"); reflexivity.
    + eapply Forall_impl; [|exact F]. simpl.
      intros o Ho. destruct o; simpl in *; try reflexivity; lia.
Qed.

(** C1, as the specification states it, fails: for a request with a target
    width, a rotation and a brightness, the handler calls resize first;
    the calls are not in the order rotation, adjustments, resize,
    encoding. *)
Lemma C1_resize_is_called_first :
  build Demo.lib Examples.edited = Some Examples.edited_instance /\
  ~ ordered_by spec_stage (ops Examples.edited_instance).
Proof.
  split; [reflexivity|].
  unfold ordered_by. simpl. intros H.
  inversion H as [|? ? _ F]; subst.
  inversion F as [|? ? Hle _]; subst.
  simpl in Hle. lia.
Qed.

Lemma C1_calls_follow_statement_order_witness :
  strictly_ordered_by stage (ops Examples.edited_instance) /\
  exists before e,
    ops Examples.edited_instance = (before ++ [e])%list /\
    is_encoder e = true /\
    Forall (fun o => is_encoder o = false) before.
Proof.
  apply (C1_calls_follow_statement_order Demo.lib Examples.edited).
  reflexivity.
Defined.

End StageOrder.

(** ** Blur *)

Section BlurStage.

Import Convert Stages.

Lemma filter_blur_planned (body : Body) :
  filter is_blur (planned body) = blur_calls (blur_of body).
Proof.
  unfold planned, adjustments, blur_of.
  set (f := default no_filters (filters body)).
  repeat rewrite filter_app.
  destruct (_ || _); simpl.
  all: destruct (truthy_number (rotate body)); simpl.
  all: destruct (brightness f); simpl.
  all: destruct (saturation f); simpl.
  all: destruct (contrast f); simpl.
  all: destruct (positive (sharpen f)); simpl.
  all: unfold encoder.
  all: destruct (String.eqb _ "png"); simpl.
  all: try destruct (String.eqb _ "webp"); simpl.
  all: unfold blur_calls; destruct (blur f) as [b|]; simpl; try reflexivity.
  all: destruct (gt b 0%Q); reflexivity.
Qed.

Lemma gt_true (x y : number) : gt x y = true <-> (y < x)%Q.
Proof.
  unfold gt. rewrite negb_true_iff. split.
  - intros H. apply Qnot_le_lt. intros L.
    apply Qle_bool_iff in L. congruence.
  - intros H. destruct (Qle_bool x y) eqn:E; [|reflexivity].
    apply Qle_bool_iff in E. exfalso. apply (Qlt_not_le _ _ H E).
Qed.

Lemma gt_false (x y : number) : gt x y = false <-> (x <= y)%Q.
Proof.
  unfold gt. rewrite negb_false_iff. apply Qle_bool_iff.
Qed.

(** [Math.max(0.3, Math.min(1000, r))] for a value below 0.3. *)
Lemma clamp_below (r : number) :
  (r < 3 # 10)%Q ->
  Math_max (3 # 10)%Q (Math_min (1000 # 1)%Q r) = (3 # 10)%Q.
Proof.
  intros H. unfold Math_max, Math_min, Qmax, Qmin, GenericMinMax.gmax,
    GenericMinMax.gmin.
  assert (H1 : ((1000 # 1) ?= r)%Q = Gt).
  { apply Qgt_alt. apply Qlt_trans with (3 # 10)%Q; [exact H | reflexivity]. }
  rewrite H1.
  assert (H2 : ((3 # 10) ?= r)%Q = Gt) by (apply Qgt_alt; exact H).
  rewrite H2. reflexivity.
Qed.

(** C7.  A positive blur below 0.3 leads to exactly one blur call, with
    sigma 0.3; a blur of zero, or no blur property at all, leads to no blur
    call. *)
Theorem C7_blur_clamped_or_skipped
  (lib : SharpModule) (body : Body) (s : Sharp)
  (Hbuild : build lib body = Some s) :
  (forall r, blur_of body = Some r -> (0 < r)%Q -> (r < 3 # 10)%Q ->
             filter is_blur (ops s) = [Blur (3 # 10)%Q]) /\
  (forall r, blur_of body = Some r -> (r == 0)%Q ->
             filter is_blur (ops s) = []) /\
  (blur_of body = None -> filter is_blur (ops s) = []).
Proof.
  apply build_planned in Hbuild. destruct Hbuild as [Hops _].
  rewrite Hops, filter_blur_planned.
  repeat split.
  - intros r Hr Hpos Hlow. rewrite Hr. unfold blur_calls.
    apply gt_true in Hpos. rewrite Hpos.
    rewrite (clamp_below r Hlow). reflexivity.
  - intros r Hr Hzero. rewrite Hr. unfold blur_calls.
    assert (G : gt r 0%Q = false).
    { apply gt_false. rewrite Hzero. apply Qle_refl. }
    rewrite G. reflexivity.
  - intros Hr. rewrite Hr. reflexivity.
Qed.

Lemma C7_blur_clamped_or_skipped_witness :
  build Demo.lib Examples.faint_blur =
    Some {| input := list_byte_of_string "IMGsource";
            ops := [Blur (3 # 10)%Q; Jpeg (90 # 1)%Q] |} /\
  blur_of Examples.faint_blur = Some (1 # 10)%Q /\
  filter is_blur [Blur (3 # 10)%Q; Jpeg (90 # 1)%Q] = [Blur (3 # 10)%Q].
Proof.
  split; [reflexivity|]. split; [reflexivity|].
  apply (proj1 (C7_blur_clamped_or_skipped Demo.lib Examples.faint_blur
                  {| input := list_byte_of_string "IMGsource";
                     ops := [Blur (3 # 10)%Q; Jpeg (90 # 1)%Q] |}
                  eq_refl) (1 # 10)%Q); reflexivity.
Defined.

End BlurStage.

(** ** Output format and quality *)

Section OutputFormat.

Import Convert Stages.

Lemma last_planned (body : Body) (d : op) :
  last (planned body) d =
  encoder (default "jpeg"%string (format body))
    (default (90 # 1)%Q (quality body)).
Proof. unfold planned. apply last_last. Qed.

(** C9, as the code has it.  The quality value (90 when absent) is the
    argument of the output-format call for png just as for webp and jpeg:
    the handler passes it on in all three cases. *)
Theorem C9_quality_is_passed_to_every_encoder
  (lib : SharpModule) (body : Body) (s : Sharp)
  (Hbuild : build lib body = Some s) :
  let quality := default (90 # 1)%Q (quality body) in
  (format body = Some "png"%string ->
   last (ops s) (Rotate None) = Png quality) /\
  (format body = Some "webp"%string ->
   last (ops s) (Rotate None) = Webp quality) /\
  (format body = Some "jpeg"%string ->
   last (ops s) (Rotate None) = Jpeg quality).
Proof.
  apply build_planned in Hbuild. destruct Hbuild as [Hops _].
  rewrite Hops, last_planned. simpl.
  repeat split; intros E; rewrite E; reflexivity.
Qed.

Lemma C9_quality_is_passed_to_every_encoder_witness :
  format (with_quality (50 # 1)%Q Examples.as_png) = Some "png"%string /\
  last [Png (50 # 1)%Q] (Rotate None) = Png (50 # 1)%Q.
Proof.
  split; [reflexivity|].
  apply (proj1 (C9_quality_is_passed_to_every_encoder Demo.lib
                  (with_quality (50 # 1)%Q Examples.as_png)
                  {| input := list_byte_of_string "IMGsource";
                     ops := [Png (50 # 1)%Q] |} eq_refl)).
  reflexivity.
Defined.

(** C9, as the specification states it, fails: two png requests that
    differ in quality alone make the handler ask different things of the
    library. *)
Lemma C9_png_call_depends_on_quality : ~ png_disregards_quality.
Proof.
  intros H.
  specialize (H Demo.lib Examples.as_png (50 # 1)%Q (90 # 1)%Q eq_refl).
  vm_compute in H. discriminate H.
Qed.





End OutputFormat.

(** ** Validation *)

Section Validation.

Import Convert Stages.







End Validation.

(** ** Resize *)

Section ResizeStage.

Import Convert Geometry.
Local Open Scope Q_scope.















End ResizeStage.

(** * Properties of the batch converter *)

Section BatchFacts.

Import Batch Runs.
Local Open Scope list_scope.
Local Open Scope nat_scope.

Variable fetch : Convert.Body -> option Convert.Response.
Variable createObjectURL : File -> string.

Local Abbreviation step := (Batch.step fetch createObjectURL).
Local Abbreviation exec := (Batch.exec fetch createObjectURL).
Local Abbreviation settled := (Batch.settled fetch).
Local Abbreviation finish := (Runs.finish fetch).
Local Abbreviation converted := (Runs.converted fetch).

Lemma Id_eqb_eq (a b : Id) : Id_eqb a b = true <-> a = b.
Proof.
  unfold Id_eqb. rewrite andb_true_iff, Z.eqb_eq, Nat.eqb_eq.
  destruct a as [sa ia], b as [sb ib]; simpl. split.
  - intros [E1 E2]. subst. reflexivity.
  - intros E. inversion E. auto.
Qed.

Lemma Id_eqb_refl (a : Id) : Id_eqb a a = true.
Proof. apply Id_eqb_eq. reflexivity. Qed.

Lemma Id_eqb_neq (a b : Id) : Id_eqb a b = false <-> a <> b.
Proof.
  split.
  - intros E H. apply Id_eqb_eq in H. congruence.
  - intros H. destruct (Id_eqb a b) eqn:E; [|reflexivity].
    apply Id_eqb_eq in E. contradiction.
Qed.

Lemma settled_map (st : BatchSettings) (batchFile : BatchFile)
  (prev : list BatchFile) :
  settled st batchFile prev =
  map (fun f => if Id_eqb (id f) (id batchFile)
                then finish st batchFile f else f) prev.
Proof.
  unfold Batch.settled, Runs.finish.
  destruct (fetch (request st batchFile)) as [response|]; [|reflexivity].
  destruct (ok response); reflexivity.
Qed.

Lemma finish_id (st : BatchSettings) (b f : BatchFile) :
  id (finish st b f) = id f.
Proof.
  unfold Runs.finish. destruct (fetch _) as [r|]; [|reflexivity].
  destruct (ok r); reflexivity.
Qed.

Lemma finish_status (st : BatchSettings) (b f : BatchFile) :
  status (finish st b f) = Completed \/ status (finish st b f) = Error.
Proof.
  unfold Runs.finish. destruct (fetch _) as [r|]; [|right; reflexivity].
  destruct (ok r); [left | right]; reflexivity.
Qed.

Lemma ids_settled (st : BatchSettings) (b : BatchFile)
  (l : list BatchFile) :
  ids (settled st b l) = ids l.
Proof.
  rewrite settled_map. unfold ids. rewrite map_map.
  apply map_ext. intros f.
  destruct (Id_eqb (id f) (id b)); [apply finish_id | reflexivity].
Qed.

Lemma ids_with_status (st : Status) (l : list BatchFile) :
  ids (map (with_status st) l) = ids l.
Proof. unfold ids. rewrite map_map. reflexivity. Qed.

Lemma in_ids (f : BatchFile) (l : list BatchFile) :
  In f l -> In (id f) (ids l).
Proof. intros H. unfold ids. apply in_map. exact H. Qed.


(** With a single call in progress, an event can only address that one. *)
Lemma nth_error_single {A : Type} (x y : A) (k : nat) :
  nth_error [x] k = Some y -> k = 0 /\ y = x.
Proof.
  destruct k as [|k]; simpl; intros H.
  - inversion H. auto.
  - destruct k; discriminate.
Qed.

Lemma carries_agree (st : BatchSettings) (b1 b2 : Convert.Body) :
  carries st b1 -> carries st b2 -> agree b1 b2.
Proof.
  unfold carries, agree.
  intros [F1 [Q1 [W1 H1]]] [F2 [Q2 [W2 H2]]].
  repeat split; congruence.
Qed.

Lemma carries_request (st : BatchSettings) (f : BatchFile) :
  carries st (request st f).
Proof. unfold carries, request. simpl. auto. Qed.

Lemma invariant_initial : invariant initial.
Proof.
  unfold invariant. split; [left; split; reflexivity|].
  split; simpl; intros; contradiction.
Qed.

Lemma NoDup_app_disjoint {A : Type} (l1 l2 : list A) (x : A) :
  NoDup (l1 ++ l2) -> In x l1 -> In x l2 -> False.
Proof.
  induction l1 as [|a l1 IH]; simpl; intros H H1 H2; [contradiction|].
  inversion H as [|? ? Hnot Hrest]; subst.
  destruct H1 as [E | H1].
  - subst a. apply Hnot. apply in_or_app. right. exact H2.
  - exact (IH Hrest H1 H2).
Qed.

Lemma consistent_select (s : Component) (i : Invocation)
  (selected : list File) (Date_now : nat -> Z) (s' : Component) :
  consistent s i ->
  step s (handleFileSelect selected Date_now) = Some s' ->
  running s' = running s /\ isProcessing s' = isProcessing s /\
  consistent s' i.
Proof.
  intros C H. simpl in H. inversion H; subst s'; clear H. simpl.
  split; [reflexivity|]. split; [reflexivity|].
  destruct C as [Cen Cdi Cpr Cru Cse].
  constructor; simpl.
  - intros f Hf. unfold ids. rewrite map_app. apply in_or_app. left.
    apply Cen. exact Hf.
  - intros N. unfold ids in N. rewrite map_app in N.
    apply NoDup_app_remove_r in N. apply Cdi. exact N.
  - intros N f g Hf Hg E. unfold ids in N. rewrite map_app in N.
    apply in_app_or in Hg. destruct Hg as [Hg | Hg].
    + apply (Cpr (NoDup_app_remove_r _ _ N) f g Hf Hg E).
    + exfalso. apply (NoDup_app_disjoint _ _ (id g) N).
      * rewrite E. apply Cen. exact Hf.
      * apply in_map. exact Hg.
  - exact Cru.
  - exact Cse.
Qed.

Lemma consistent_start (s : Component) :
  (forall r b, In (r, b) (sent s) -> r <= runs s) ->
  consistent
    {| files := map (with_status Processing) (files s);
       settings := settings s;
       isProcessing := true;
       running :=
         running s ++
         [{| run := S (runs s); captured_settings := settings s;
             remaining := files s; awaiting := None |}];
       runs := S (runs s);
       sent := sent s |}
    {| run := S (runs s); captured_settings := settings s;
       remaining := files s; awaiting := None |}.
Proof.
  intros B. constructor; simpl; unfold waiting; simpl.
  - intros f Hf. rewrite ids_with_status. apply in_ids. exact Hf.
  - rewrite ids_with_status. auto.
  - intros _ f g _ Hg _. apply in_map_iff in Hg.
    destruct Hg as [g0 [E _]]. subst g. reflexivity.
  - reflexivity.
  - intros b Hb. apply B in Hb. lia.
Qed.

Lemma consistent_begin (s : Component) (r : nat) (st : BatchSettings)
  (file : BatchFile) (rest : list BatchFile) :
  consistent s {| run := r; captured_settings := st;
                  remaining := file :: rest; awaiting := None |} ->
  consistent
    {| files := files s; settings := settings s;
       isProcessing := isProcessing s;
       running := [{| run := r; captured_settings := st;
                      remaining := rest; awaiting := Some file |}];
       runs := runs s;
       sent := sent s ++ [(r, request st file)] |}
    {| run := r; captured_settings := st;
       remaining := rest; awaiting := Some file |}.
Proof.
  intros [Cen Cdi Cpr Cru Cse].
  constructor; simpl in *; unfold waiting in *; simpl in *.
  - exact Cen.
  - exact Cdi.
  - exact Cpr.
  - exact Cru.
  - intros b Hb. apply in_app_or in Hb. destruct Hb as [Hb | Hb].
    + apply Cse. exact Hb.
    + destruct Hb as [E | []]. inversion E. apply carries_request.
Qed.

Lemma consistent_settle (s : Component) (r : nat) (st : BatchSettings)
  (file : BatchFile) (rest : list BatchFile) :
  consistent s {| run := r; captured_settings := st;
                  remaining := rest; awaiting := Some file |} ->
  consistent
    {| files := settled st file (files s); settings := settings s;
       isProcessing := isProcessing s;
       running := [{| run := r; captured_settings := st;
                      remaining := rest; awaiting := None |}];
       runs := runs s;
       sent := sent s |}
    {| run := r; captured_settings := st;
       remaining := rest; awaiting := None |}.
Proof.
  intros [Cen Cdi Cpr Cru Cse].
  constructor; simpl in *; unfold waiting in *; simpl in *.
  - intros f Hf. rewrite ids_settled. apply Cen. right. exact Hf.
  - rewrite ids_settled. intros N. specialize (Cdi N).
    inversion Cdi. assumption.
  - rewrite ids_settled. intros N f g' Hf Hg' E.
    rewrite settled_map in Hg'. apply in_map_iff in Hg'.
    destruct Hg' as [g [Eg Hg]].
    destruct (Id_eqb (id g) (id file)) eqn:Q.
    + exfalso. apply Id_eqb_eq in Q. subst g'.
      rewrite finish_id in E.
      specialize (Cdi N). inversion Cdi as [|? ? Hnot _]; subst.
      apply Hnot. rewrite <- Q, E. apply in_ids. exact Hf.
    + subst g'. apply (Cpr N f g); auto.
  - exact Cru.
  - exact Cse.
Qed.

Lemma consistent_same (s s' : Component) (i : Invocation) :
  files s' = files s -> runs s' = runs s -> sent s' = sent s ->
  consistent s i -> consistent s' i.
Proof.
  intros Ef Er Es [Cen Cdi Cpr Cru Cse].
  constructor; rewrite ?Ef, ?Er, ?Es; assumption.
Qed.

Lemma nth_error_none_nil {A : Type} (k : nat) :
  nth_error (@nil A) k = None.
Proof. destruct k; reflexivity. Qed.

(** Every event keeps the invariant. *)
Lemma invariant_step (s s' : Component) (e : Event) :
  invariant s -> step s e = Some s' -> invariant s'.
Proof.
  intros [M [B U]] H. destruct e as [sel now | target | c | | k | k | k].
  - (* handleFileSelect *)
    destruct M as [[Ip Ir] | [Ip [i [Ir C]]]].
    + simpl in H. inversion H; subst s'; clear H.
      split; [left; split; assumption|]. split; assumption.
    + destruct (consistent_select s i sel now s' C H) as [R' [P' C']].
      simpl in H. inversion H; subst s'; clear H.
      split; [right; split; [exact Ip | exists i; split; assumption]|].
      split; assumption.
  - (* removeFile *)
    simpl in H. destruct M as [[Ip Ir] | [Ip _]]; rewrite Ip in H;
      [|discriminate].
    inversion H; subst s'; clear H.
    split; [left; split; simpl; auto|]. split; assumption.
  - (* setSettings *)
    simpl in H. inversion H; subst s'; clear H.
    split; [|split; assumption].
    destruct M as [[Ip Ir] | [Ip [i [Ir C]]]].
    + left; split; assumption.
    + right. split; [exact Ip|]. exists i. split; [exact Ir|].
      apply (consistent_same s); auto.
  - (* processAllFiles *)
    simpl in H. destruct M as [[Ip Ir] | [Ip _]]; rewrite Ip in H.
    + destruct (Nat.eqb _ 0); [discriminate|]. simpl in H.
      inversion H; subst s'; clear H.
      split; [|split].
      * right. split; [reflexivity|]. simpl. rewrite Ir. simpl.
        eexists. split; [reflexivity|].
        pose proof (consistent_start s B) as C.
        rewrite Ir in C. exact C.
      * simpl. intros r b Hb. apply B in Hb. lia.
      * exact U.
    + rewrite orb_true_r in H. discriminate.
  - (* processFile_begin *)
    simpl in H. destruct M as [[Ip Ir] | [Ip [i [Ir C]]]]; rewrite Ir in H.
    + rewrite nth_error_none_nil in H. discriminate.
    + destruct (nth_error [i] k) as [j|] eqn:N; [|discriminate].
      apply nth_error_single in N. destruct N as [Ek Ej]. subst k j.
      destruct i as [r st rem aw]. destruct rem as [|file rest];
        [discriminate|]. destruct aw; [discriminate|].
      inversion H; subst s'; clear H. simpl.
      pose proof (consistent_begin s r st file rest C) as C'.
      pose proof (run_current _ _ C) as Er. simpl in Er.
      pose proof (sent_by_run _ _ C) as Sr. simpl in Sr.
      split; [|split].
      * right. split; [exact Ip|]. simpl. eexists. split; [reflexivity|].
        exact C'.
      * simpl. intros r' b Hb. apply in_app_or in Hb.
        destruct Hb as [Hb | [E | []]]; [eauto|]. inversion E. lia.
      * simpl. intros r' b1 b2 H1 H2.
        apply in_app_or in H1. apply in_app_or in H2.
        destruct H1 as [H1 | [E1 | []]]; destruct H2 as [H2 | [E2 | []]].
        -- eauto.
        -- inversion E2; subst r' b2.
           apply (carries_agree st); [auto | apply carries_request].
        -- inversion E1; subst r' b1.
           apply (carries_agree st); [apply carries_request | auto].
        -- inversion E1; inversion E2; subst.
           apply (carries_agree st); apply carries_request.
  - (* processFile_settle *)
    simpl in H. destruct M as [[Ip Ir] | [Ip [i [Ir C]]]]; rewrite Ir in H.
    + rewrite nth_error_none_nil in H. discriminate.
    + destruct (nth_error [i] k) as [j|] eqn:N; [|discriminate].
      apply nth_error_single in N. destruct N as [Ek Ej]. subst k j.
      destruct i as [r st rest aw]. destruct aw as [file|]; [|discriminate].
      inversion H; subst s'; clear H. simpl.
      pose proof (consistent_settle s r st file rest C) as C'.
      split; [|split; assumption].
      right. split; [exact Ip|]. simpl. eexists. split; [reflexivity|].
      exact C'.
  - (* processAllFiles_return *)
    simpl in H. destruct M as [[Ip Ir] | [Ip [i [Ir C]]]]; rewrite Ir in H.
    + rewrite nth_error_none_nil in H. discriminate.
    + destruct (nth_error [i] k) as [j|] eqn:N; [|discriminate].
      apply nth_error_single in N. destruct N as [Ek Ej]. subst k j.
      destruct i as [r st rem aw]. destruct rem; [|discriminate].
      destruct aw; [discriminate|].
      inversion H; subst s'; clear H. simpl.
      split; [|split; assumption].
      left. split; reflexivity.
Qed.

Lemma invariant_exec (events : list Event) (s s' : Component) :
  invariant s -> exec s events = Some s' -> invariant s'.
Proof.
  revert s. induction events as [|e rest IH]; simpl; intros s I H.
  - inversion H; subst. exact I.
  - destruct (step s e) as [s1|] eqn:E; [|discriminate].
    apply (IH s1); [|exact H]. apply (invariant_step s s1 e I E).
Qed.

Lemma invariant_reachable (events : list Event) (s : Component) :
  exec initial events = Some s -> invariant s.
Proof. apply invariant_exec. apply invariant_initial. Qed.

(** ** One conversion at a time *)


(** ** Status changes *)


(** ** A whole run *)

Lemma finish_own (st : BatchSettings) (f : BatchFile) :
  finish st f (with_status Processing f) = converted st f.
Proof.
  unfold Runs.finish, Runs.converted.
  destruct (fetch _) as [r|]; [|reflexivity].
  destruct (ok r); reflexivity.
Qed.

Lemma settled_others (st : BatchSettings) (b : BatchFile)
  (l : list BatchFile) :
  ~ In (id b) (ids l) -> settled st b l = l.
Proof.
  intros H. rewrite settled_map. rewrite <- (map_id l) at 2.
  apply map_ext_in. intros g Hg.
  destruct (Id_eqb (id g) (id b)) eqn:Q; [|reflexivity].
  apply Id_eqb_eq in Q. exfalso. apply H. rewrite <- Q.
  apply in_ids. exact Hg.
Qed.

(** The loop of [processAllFiles], from any point of its iteration:
    [done] are the files already dealt with, [rest] those still to
    visit. *)
Lemma loop_converts (rest : list BatchFile) :
  forall (s : Component) (done : list BatchFile) (r : nat)
         (st : BatchSettings),
    files s = done ++ map (with_status Processing) rest ->
    running s = [{| run := r; captured_settings := st;
                    remaining := rest; awaiting := None |}] ->
    NoDup (ids rest) ->
    (forall g, In g done -> ~ In (id g) (ids rest)) ->
    exists s',
      exec s (loop (List.length rest)) = Some s' /\
      files s' = done ++ map (converted st) rest /\
      isProcessing s' = false /\
      running s' = [] /\
      settings s' = settings s.
Proof.
  induction rest as [|f rest IH]; intros s done r st Hf Hr N D.
  - simpl. rewrite Hr. simpl. eexists. split; [reflexivity|].
    simpl. auto.
  - simpl loop. cbn [Batch.exec Batch.step]. rewrite Hr. simpl.
    inversion N as [|? ? Hnot N']; subst.
    assert (Hfiles :
      settled st f (files s) =
      (done ++ [converted st f]) ++ map (with_status Processing) rest).
    { rewrite Hf. rewrite settled_map. rewrite map_app. simpl.
      rewrite Id_eqb_refl. rewrite finish_own.
      rewrite <- !settled_map.
      rewrite settled_others.
      - rewrite settled_others.
        + rewrite <- app_assoc. reflexivity.
        + rewrite ids_with_status. exact Hnot.
      - intros H. apply in_map_iff in H. destruct H as [g [E Hg]].
        apply (D g Hg). simpl. left. symmetry. exact E. }
    destruct (IH
      {| files := settled st f (files s);
         settings := settings s;
         isProcessing := isProcessing s;
         running := [{| run := r; captured_settings := st;
                        remaining := rest; awaiting := None |}];
         runs := runs s;
         sent := sent s ++ [(r, request st f)] |}
      (done ++ [converted st f]) r st Hfiles eq_refl N')
      as [s' [He [Hf' [Hp [Hr' Hs']]]]].
    { intros g Hg. apply in_app_or in Hg. destruct Hg as [Hg | [E | []]].
      - intros H. apply (D g Hg). simpl. right. exact H.
      - subst g. unfold Runs.converted.
        destruct (fetch _) as [x|]; [destruct (ok x)|]; exact Hnot. }
    exists s'. split; [exact He|]. split.
    + rewrite Hf'. rewrite <- app_assoc. reflexivity.
    + auto.
Qed.


(** ** Settings during a run *)

(** C8, as the code has it.  A change of the settings is taken at any
    time, also during a run: it replaces the component's settings and
    leaves the calls in progress as they are.  A run reads the settings of
    the render it was started in: in every reachable state, the requests
    sent by one run all carry the same format, quality, width and height,
    and those of a run in progress carry the settings it captured. *)
Theorem C8_a_run_keeps_the_settings_it_started_with
  (events : list Event) (s : Component)
  (Hreach : exec initial events = Some s) :
  (forall c, exists s',
      step s (setSettings c) = Some s' /\
      settings s' = change c (settings s) /\
      running s' = running s /\
      files s' = files s /\
      sent s' = sent s) /\
  (forall r b1 b2, In (r, b1) (sent s) -> In (r, b2) (sent s) ->
                   agree b1 b2) /\
  (forall i b, In i (running s) -> In (run i, b) (sent s) ->
               carries (captured_settings i) b).
Proof.
  apply invariant_reachable in Hreach. destruct Hreach as [M [_ U]].
  split; [|split].
  - intros c. eexists. split; [reflexivity|]. simpl. auto.
  - exact U.
  - intros i b Hi Hb.
    destruct M as [[_ Ir] | [_ [j [Ir C]]]]; rewrite Ir in Hi.
    + contradiction.
    + destruct Hi as [E | []]. subst j.
      apply (sent_by_run _ _ C). exact Hb.
Qed.

End BatchFacts.

(** ** Runs of the batch converter on three files *)

Section BatchExamples.

Import Batch Runs.
Local Open Scope list_scope.
Local Open Scope nat_scope.

Local Abbreviation exec := (Batch.exec Demo.fetch Demo.createObjectURL).
Local Abbreviation step := (Batch.step Demo.fetch Demo.createObjectURL).

(** The scenario of the specification: the second of three files is
    corrupt; after the run the first and third are completed and the
    second has failed. *)
Example three_files_one_corrupt :
  map status (files (Examples.after Examples.one_run)) =
    [Completed; Error; Completed] /\
  map result (files (Examples.after Examples.one_run)) =
    [Some "IMGone"%string; None; Some "IMGthree"%string] /\
  map error (files (Examples.after Examples.one_run)) =
    [None; Some "Failed to process"%string; None] /\
  isProcessing (Examples.after Examples.one_run) = false.
Proof. vm_compute. repeat split. Qed.


(** The state the runs below start from is the one the selection of the
    three files leads to. *)
Example enrolled_is_reached :
  exec initial [Examples.enroll_three] = Some Examples.enrolled.
Proof. reflexivity. Qed.






(** C8, as the specification states it, fails: during a run a change of
    the format is taken without any error.  The request sent next still
    carries the format the run started with. *)
Lemma C8_settings_change_during_a_run_is_taken :
  exec initial Examples.changed_midway
    = Some (Examples.after Examples.changed_midway) /\
  isProcessing (Examples.after Examples.changed_midway) = true /\
  format (settings (Examples.after Examples.changed_midway))
    = "png"%string /\
  map (fun entry => Convert.format (snd entry))
    (sent (Examples.after Examples.changed_midway))
    = [Some "webp"%string; Some "webp"%string] /\
  ~ settings_are_read_only_during_a_run Demo.fetch Demo.createObjectURL.
Proof.
  split; [reflexivity|]. split; [reflexivity|]. split; [reflexivity|].
  split; [reflexivity|].
  intros H.
  specialize (H Examples.started (Examples.after Examples.started)
                (set_format "png") eq_refl eq_refl).
  discriminate H.
Qed.

Lemma C8_a_run_keeps_the_settings_it_started_with_witness :
  (forall c, exists s',
      step (Examples.after Examples.changed_midway) (setSettings c)
        = Some s' /\
      settings s'
        = change c (settings (Examples.after Examples.changed_midway)) /\
      running s' = running (Examples.after Examples.changed_midway) /\
      files s' = files (Examples.after Examples.changed_midway) /\
      sent s' = sent (Examples.after Examples.changed_midway)) /\
  (forall r b1 b2,
      In (r, b1) (sent (Examples.after Examples.changed_midway)) ->
      In (r, b2) (sent (Examples.after Examples.changed_midway)) ->
      agree b1 b2) /\
  (forall i b,
      In i (running (Examples.after Examples.changed_midway)) ->
      In (run i, b) (sent (Examples.after Examples.changed_midway)) ->
      carries (captured_settings i) b).
Proof.
  apply (C8_a_run_keeps_the_settings_it_started_with Demo.fetch
           Demo.createObjectURL Examples.changed_midway).
  reflexivity.
Defined.

End BatchExamples.

(** * Further properties of the conversion endpoint *)

Section MoreConvertFacts.

Import Convert Stages Calls.

Variable lib : SharpModule.

(** Case analysis on everything the sequence of calls depends on. *)
Ltac by_cases body :=
  unfold planned, adjustments, filters_of, encoder, blur_calls, positive;
  repeat rewrite filter_app;
  destruct (truthy_number (width body) || truthy_number (height body));
  destruct (truthy_number (rotate body));
  destruct (brightness (default no_filters (filters body)));
  destruct (saturation (default no_filters (filters body)));
  destruct (contrast (default no_filters (filters body)));
  destruct (blur (default no_filters (filters body))) as [b|];
  try destruct (gt b 0%Q);
  destruct (sharpen (default no_filters (filters body))) as [v|];
  try destruct (gt v 0%Q);
  destruct (String.eqb (default "jpeg"%string (format body)) "png");
  destruct (String.eqb (default "jpeg"%string (format body)) "webp");
  reflexivity.

Lemma filter_resize_planned (body : Body) :
  filter is_resize (planned body) =
  if truthy_number (width body) || truthy_number (height body)
  then [Resize (width body) (height body) inside] else [].
Proof. by_cases body. Qed.

Lemma filter_rotate_planned (body : Body) :
  filter is_rotate (planned body) =
  if truthy_number (rotate body) then [Rotate (rotate body)] else [].
Proof. by_cases body. Qed.

Lemma filter_sharpen_planned (body : Body) :
  filter is_sharpen (planned body) =
  if positive (sharpen (filters_of body))
  then [Sharpen (sharpen (filters_of body))] else [].
Proof. by_cases body. Qed.

Lemma filter_colour_planned (body : Body) :
  filter is_colour (planned body) =
  ((if defined (brightness (filters_of body))
    then [Modulate (brightness (filters_of body)) None] else []) ++
   (if defined (saturation (filters_of body))
    then [Modulate None (saturation (filters_of body))] else []) ++
   (if defined (contrast (filters_of body))
    then [Linear (contrast (filters_of body)) 0%Q] else []))%list.
Proof. by_cases body. Qed.


(** X2.  Sharpen is guarded like blur but not clamped: a value above zero
    leads to exactly one sharpen call carrying that value, however large;
    zero, a negative value or no value leads to none. *)
Theorem X2_sharpen_is_passed_unclamped_or_skipped
  (body : Body) (s : Sharp)
  (Hbuild : build lib body = Some s) :
  (forall v, sharpen (filters_of body) = Some v -> (0 < v)%Q ->
             filter is_sharpen (ops s) = [Sharpen (Some v)]) /\
  (forall v, sharpen (filters_of body) = Some v -> (v <= 0)%Q ->
             filter is_sharpen (ops s) = []) /\
  (sharpen (filters_of body) = None -> filter is_sharpen (ops s) = []).
Proof.
  apply build_planned in Hbuild. destruct Hbuild as [Hops _].
  rewrite Hops, filter_sharpen_planned.
  repeat split.
  - intros v E P. rewrite E. simpl. apply gt_true in P. rewrite P.
    reflexivity.
  - intros v E P. rewrite E. simpl. apply gt_false in P. rewrite P.
    reflexivity.
  - intros E. rewrite E. reflexivity.
Qed.

(** X3.  The resize call is made exactly when width or height is a number
    other than zero, and then with both values as received, so also with
    a zero, an absent or a negative one; the rotate call is made exactly
    when the angle is a number other than zero, with the angle as
    received.  Neither is made twice. *)
Theorem X3_resize_and_rotate_are_guarded_by_truthiness
  (body : Body) (s : Sharp)
  (Hbuild : build lib body = Some s) :
  filter is_resize (ops s) =
    (if truthy_number (width body) || truthy_number (height body)
     then [Resize (width body) (height body) inside] else []) /\
  filter is_rotate (ops s) =
    (if truthy_number (rotate body) then [Rotate (rotate body)] else []).
Proof.
  apply build_planned in Hbuild. destruct Hbuild as [Hops _].
  rewrite Hops, filter_resize_planned, filter_rotate_planned.
  split; reflexivity.
Qed.

(** X4.  Brightness, saturation and contrast have no guard on their
    value: whenever one is present, zero and negative values included,
    its call is made with the value as received; brightness and
    saturation go to two separate modulate calls, contrast to a linear
    call with offset 0, in that order. *)
Theorem X4_colour_values_are_passed_unchecked
  (body : Body) (s : Sharp)
  (Hbuild : build lib body = Some s) :
  filter is_colour (ops s) =
    ((match brightness (filters_of body) with
      | Some v => [Modulate (Some v) None]
      | None => []
      end) ++
     (match saturation (filters_of body) with
      | Some v => [Modulate None (Some v)]
      | None => []
      end) ++
     (match contrast (filters_of body) with
      | Some v => [Linear (Some v) 0%Q]
      | None => []
      end))%list.
Proof.
  apply build_planned in Hbuild. destruct Hbuild as [Hops _].
  rewrite Hops, filter_colour_planned.
  destruct (brightness (filters_of body));
    destruct (saturation (filters_of body));
    destruct (contrast (filters_of body)); reflexivity.
Qed.

End MoreConvertFacts.

(** * Further properties of the batch converter *)

Section MoreBatchFacts.

Import Batch Runs Runs2 Panel.
Local Open Scope list_scope.
Local Open Scope nat_scope.

Variable fetch : Convert.Body -> option Convert.Response.
Variable createObjectURL : File -> string.

Local Abbreviation step := (Batch.step fetch createObjectURL).
Local Abbreviation exec := (Batch.exec fetch createObjectURL).
Local Abbreviation settled := (Batch.settled fetch).
Local Abbreviation finish := (Runs.finish fetch).
Local Abbreviation converted := (Runs.converted fetch).
Local Abbreviation newFiles := (Batch.newFiles createObjectURL).

(** ** Selecting files *)

Lemma newFiles_files (Date_now : nat -> Z) (selected : list File) :
  forall index,
    map file (newFiles Date_now index selected) = filter is_image selected.
Proof.
  induction selected as [|x rest IH]; intros index; simpl; [reflexivity|].
  unfold is_image at 1. destruct (String.prefix "image/" (type x)); simpl.
  - rewrite IH. reflexivity.
  - apply IH.
Qed.

Lemma newFiles_fresh (Date_now : nat -> Z) (selected : list File) :
  forall index f,
    In f (newFiles Date_now index selected) ->
    status f = Pending /\ result f = None /\ error f = None /\
    preview f = createObjectURL (file f) /\
    stamp (id f) = Date_now (Batch.index (id f)) /\
    index <= Batch.index (id f) < index + List.length selected.
Proof.
  induction selected as [|x rest IH]; intros index f H; simpl in H.
  - contradiction.
  - assert (Later : In f (newFiles Date_now (S index) rest) ->
                    status f = Pending /\ result f = None /\
                    error f = None /\
                    preview f = createObjectURL (file f) /\
                    stamp (id f) = Date_now (Batch.index (id f)) /\
                    index <= Batch.index (id f)
                      < index + List.length (x :: rest)).
    { intros H'. destruct (IH (S index) f H') as [A [B [C [D [E F]]]]].
      repeat split; try assumption; simpl; lia. }
    destruct (String.prefix "image/" (type x)); [|auto].
    destruct H as [E | H]; [|auto].
    subst f. simpl. repeat split; lia.
Qed.

(** X5.  Selecting files is possible in every state, also during a run.
    The files already listed stay as they are, in place; of the selected
    files exactly those whose type starts with "image/" are appended, in
    the order of the selection, each pending, without result or error;
    the others are dropped without notice.  Nothing else changes. *)
Theorem X5_selection_appends_the_images
  (s : Component) (selected : list File) (Date_now : nat -> Z) :
  exists s' new,
    step s (handleFileSelect selected Date_now) = Some s' /\
    files s' = files s ++ new /\
    map file new = filter is_image selected /\
    Forall (fun f => status f = Pending /\ result f = None /\
                     error f = None) new /\
    settings s' = settings s /\ isProcessing s' = isProcessing s /\
    running s' = running s /\ sent s' = sent s.
Proof.
  eexists. exists (newFiles Date_now 0 selected).
  split; [reflexivity|]. simpl.
  split; [reflexivity|]. split; [apply newFiles_files|].
  split; [|auto].
  apply Forall_forall. intros f H.
  destruct (newFiles_fresh Date_now selected 0 f H) as [A [B [C _]]].
  auto.
Qed.

Lemma newFiles_distinct (Date_now : nat -> Z) (selected : list File) :
  forall index, NoDup (ids (newFiles Date_now index selected)).
Proof.
  induction selected as [|x rest IH]; intros index; simpl.
  - constructor.
  - destruct (String.prefix "image/" (type x)); [|apply IH].
    simpl. constructor; [|apply IH].
    intros H. unfold ids in H. apply in_map_iff in H.
    destruct H as [f [E Hf]].
    destruct (newFiles_fresh Date_now rest (S index) f Hf)
      as [_ [_ [_ [_ [_ R]]]]].
    rewrite E in R. simpl in R. lia.
Qed.

(** X6.  The files of one selection get pairwise distinct identifiers,
    whatever the clock reads, also when it reads the same time for all of
    them: the identifier holds the position of the file in the selection
    (counting the files that are not images) next to the time read at
    that position. *)
Theorem X6_identifiers_of_one_selection_are_distinct
  (selected : list File) (Date_now : nat -> Z) :
  NoDup (ids (newFiles Date_now 0 selected)) /\
  forall f, In f (newFiles Date_now 0 selected) ->
    Batch.index (id f) < List.length selected /\
    stamp (id f) = Date_now (Batch.index (id f)) /\
    nth_error selected (Batch.index (id f)) = Some (file f).
Proof.
  split; [apply newFiles_distinct|].
  assert (G : forall sel k f,
             In f (newFiles Date_now k sel) ->
             nth_error sel (Batch.index (id f) - k) = Some (file f)).
  { induction sel as [|x rest IH]; intros k f H; simpl in H.
    - contradiction.
    - assert (Later : In f (newFiles Date_now (S k) rest) ->
                      nth_error (x :: rest) (Batch.index (id f) - k)
                      = Some (file f)).
      { intros H'.
        destruct (newFiles_fresh Date_now rest (S k) f H')
          as [_ [_ [_ [_ [_ R]]]]].
        replace (Batch.index (id f) - k)
          with (S (Batch.index (id f) - S k)) by lia.
        simpl. apply IH. exact H'. }
      destruct (String.prefix "image/" (type x)); [|auto].
      destruct H as [E | H]; [|auto].
      subst f. simpl. rewrite Nat.sub_diag. reflexivity. }
  intros f H.
  destruct (newFiles_fresh Date_now selected 0 f H)
    as [_ [_ [_ [_ [S R]]]]].
  split; [lia|]. split; [exact S|].
  specialize (G selected 0 f H). rewrite Nat.sub_0_r in G. exact G.
Qed.

(** ** Removing a file *)


(** ** What a run leaves alone *)

(** X8.  No event other than the selection and the removal of files adds
    a file, drops one, reorders them or touches a file's identifier,
    content or preview: a run and a change of the settings leave the list
    as it is in all but status, result and error. *)
Theorem X8_a_run_keeps_the_list_of_files
  (s s' : Component) (e : Event)
  (Hevent : keeps_files e = true)
  (Hstep : step s e = Some s') :
  map identity (files s') = map identity (files s).
Proof.
  destruct e as [sel now | target | c | | k | k | k]; simpl in Hstep;
    try discriminate Hevent.
  - inversion Hstep; subst s'. reflexivity.
  - destruct (_ || _)%bool; [discriminate|].
    inversion Hstep; subst s'. simpl. rewrite map_map. reflexivity.
  - destruct (nth_error (running s) k) as [[r st [|file rest] [aw|]]|];
      try discriminate.
    inversion Hstep; subst s'. reflexivity.
  - destruct (nth_error (running s) k) as [[r st rest [file|]]|];
      try discriminate.
    inversion Hstep; subst s'. simpl. rewrite settled_map, map_map.
    apply map_ext. intros f.
    destruct (Id_eqb (id f) (id file)); [|reflexivity].
    unfold Runs.finish. destruct (fetch _) as [x|]; [destruct (ok x)|];
      reflexivity.
  - destruct (nth_error (running s) k) as [[r st [|file rest] [aw|]]|];
      try discriminate.
    inversion Hstep; subst s'. reflexivity.
Qed.


(** ** The processing flag *)

Lemma waited_step (s s' : Component) (e : Event) :
  processing_is_waited_for s -> step s e = Some s' ->
  processing_is_waited_for s'.
Proof.
  intros M H. destruct e as [sel now | target | c | | k | k | k];
    simpl in H.
  - inversion H; subst s'; clear H.
    destruct M as [[Ip [Ir N]] | [Ip [i [Ir W]]]]; [left | right]; simpl.
    + split; [exact Ip|]. split; [exact Ir|]. intros g Hg.
      apply in_app_or in Hg. destruct Hg as [Hg | Hg]; [auto|].
      destruct (newFiles_fresh now sel 0 g Hg) as [A _].
      rewrite A. discriminate.
    + split; [exact Ip|]. exists i. split; [exact Ir|]. intros g Hg P.
      apply in_app_or in Hg. destruct Hg as [Hg | Hg]; [auto|].
      destruct (newFiles_fresh now sel 0 g Hg) as [A _].
      rewrite A in P. discriminate.
  - destruct M as [[Ip [Ir N]] | [Ip _]]; rewrite Ip in H;
      [|discriminate].
    inversion H; subst s'; clear H. left. simpl.
    split; [reflexivity|]. split; [exact Ir|]. intros g Hg.
    apply filter_In in Hg. apply N. apply Hg.
  - inversion H; subst s'; clear H. exact M.
  - destruct M as [[Ip [Ir N]] | [Ip _]]; rewrite Ip in H.
    + destruct (Nat.eqb _ 0); [discriminate|]. simpl in H.
      inversion H; subst s'; clear H. right. simpl.
      split; [reflexivity|]. rewrite Ir. simpl. eexists.
      split; [reflexivity|]. unfold waiting. simpl. intros g Hg _.
      apply in_map_iff in Hg. destruct Hg as [g0 [E Hg0]]. subst g.
      simpl. apply in_ids. exact Hg0.
    + rewrite orb_true_r in H. discriminate.
  - destruct M as [[Ip [Ir N]] | [Ip [i [Ir W]]]]; rewrite Ir in H.
    + rewrite nth_error_none_nil in H. discriminate.
    + destruct (nth_error [i] k) as [j|] eqn:E; [|discriminate].
      apply nth_error_single in E. destruct E as [Ek Ej]. subst k j.
      destruct i as [r st rem aw]. destruct rem as [|file rest];
        [discriminate|]. destruct aw; [discriminate|].
      inversion H; subst s'; clear H. right. simpl.
      split; [exact Ip|]. eexists. split; [reflexivity|]. exact W.
  - destruct M as [[Ip [Ir N]] | [Ip [i [Ir W]]]]; rewrite Ir in H.
    + rewrite nth_error_none_nil in H. discriminate.
    + destruct (nth_error [i] k) as [j|] eqn:E; [|discriminate].
      apply nth_error_single in E. destruct E as [Ek Ej]. subst k j.
      destruct i as [r st rest aw]. destruct aw as [file|];
        [|discriminate].
      inversion H; subst s'; clear H. right. simpl.
      split; [exact Ip|]. eexists. split; [reflexivity|].
      unfold waiting in *. simpl in *. intros g' Hg' P.
      rewrite settled_map in Hg'. apply in_map_iff in Hg'.
      destruct Hg' as [g [E Hg]].
      destruct (Id_eqb (id g) (id file)) eqn:Q.
      * exfalso. subst g'.
        destruct (finish_status fetch st file g) as [T | T];
          rewrite T in P; discriminate.
      * subst g'. destruct (W g Hg P) as [E | E]; [|exact E].
        apply Id_eqb_neq in Q. exfalso. apply Q. symmetry. exact E.
  - destruct M as [[Ip [Ir N]] | [Ip [i [Ir W]]]]; rewrite Ir in H.
    + rewrite nth_error_none_nil in H. discriminate.
    + destruct (nth_error [i] k) as [j|] eqn:E; [|discriminate].
      apply nth_error_single in E. destruct E as [Ek Ej]. subst k j.
      destruct i as [r st rem aw]. destruct rem; [|discriminate].
      destruct aw; [discriminate|].
      inversion H; subst s'; clear H. left. simpl.
      split; [reflexivity|]. split; [reflexivity|].
      intros g Hg P. exact (W g Hg P).
Qed.

Lemma waited_exec (events : list Event) (s s' : Component) :
  processing_is_waited_for s -> exec s events = Some s' ->
  processing_is_waited_for s'.
Proof.
  revert s. induction events as [|e rest IH]; simpl; intros s I H.
  - inversion H; subst. exact I.
  - destruct (step s e) as [s1|] eqn:E; [|discriminate].
    apply (IH s1); [|exact H]. apply (waited_step s s1 e I E).
Qed.

Lemma waited_initial : processing_is_waited_for initial.
Proof. left. simpl. repeat split. intros g []. Qed.

Lemma none_processing (l : list BatchFile) :
  (forall g, In g l -> status g <> Processing) ->
  List.length (filter (fun f => match status f with
                                | Processing => true
                                | _ => false
                                end) l) = 0.
Proof.
  induction l as [|f l IH]; simpl; intros H; [reflexivity|].
  destruct (status f) eqn:E; try (apply IH; intros g Hg; apply H; auto).
  exfalso. apply (H f); auto.
Qed.


(** ** Runs that go through *)

Lemma exec_app (a b : list Event) (s : Component) :
  exec s (a ++ b) =
  match exec s a with
  | Some s1 => exec s1 b
  | None => None
  end.
Proof.
  revert s. induction a as [|e a IH]; intros s; simpl; [reflexivity|].
  destruct (step s e); [apply IH | reflexivity].
Qed.

(** The loop from any point of its iteration, whatever the files and
    their identifiers are. *)
Lemma loop_returns (rest : list BatchFile) :
  forall (s : Component) (r : nat) (st : BatchSettings),
    running s = [{| run := r; captured_settings := st;
                    remaining := rest; awaiting := None |}] ->
    exists s',
      exec s (loop (List.length rest)) = Some s' /\
      isProcessing s' = false /\
      running s' = [] /\
      sent s' = sent s ++ map (fun f => (r, request st f)) rest /\
      settings s' = settings s /\
      map identity (files s') = map identity (files s).
Proof.
  induction rest as [|f rest IH]; intros s r st Hr.
  - simpl. rewrite Hr. simpl. eexists. split; [reflexivity|]. simpl.
    rewrite app_nil_r. auto.
  - simpl loop. cbn [Batch.exec Batch.step]. rewrite Hr. simpl.
    destruct (IH
      {| files := settled st f (files s);
         settings := settings s;
         isProcessing := isProcessing s;
         running := [{| run := r; captured_settings := st;
                        remaining := rest; awaiting := None |}];
         runs := runs s;
         sent := sent s ++ [(r, request st f)] |} r st eq_refl)
      as [s' [He [Hp [Hr' [Hs [Hset Hid]]]]]].
    exists s'. split; [exact He|]. split; [exact Hp|].
    split; [exact Hr'|]. simpl in *. split.
    + rewrite Hs, <- app_assoc. reflexivity.
    + split; [exact Hset|]. rewrite Hid.
      rewrite settled_map, map_map. apply map_ext. intros g.
      destruct (Id_eqb (id g) (id f)); [|reflexivity].
      unfold Runs.finish. destruct (fetch _) as [x|]; [destruct (ok x)|];
        reflexivity.
Qed.

(** X11.  A run in progress can always be brought to its end: from every
    reachable state with [isProcessing] set, letting the pending request
    settle (if one is pending) and the loop visit the files it has left
    leads to a state without a run in progress, with the same files
    listed and none of them shown as processing.  No answer of the
    network can block the loop. *)
Theorem X11_a_run_in_progress_can_finish
  (events : list Event) (s : Component)
  (Hreach : exec initial events = Some s)
  (Hbusy : isProcessing s = true) :
  exists i s',
    running s = [i] /\
    exec s (rest_of_run i) = Some s' /\
    isProcessing s' = false /\ running s' = [] /\
    processing_count s' = 0 /\
    map identity (files s') = map identity (files s).
Proof.
  pose proof (invariant_reachable fetch createObjectURL events s Hreach)
    as [[[Ip _] | [_ [i [Ir _]]]] _]; [congruence|].
  exists i.
  assert (R : exists s',
             exec s (rest_of_run i) = Some s' /\
             isProcessing s' = false /\ running s' = [] /\
             map identity (files s') = map identity (files s)).
  { destruct i as [r st rest [file|]]; unfold rest_of_run; simpl.
    - rewrite Ir. simpl.
      destruct (loop_returns rest
        {| files := settled st file (files s);
           settings := settings s;
           isProcessing := isProcessing s;
           running := [{| run := r; captured_settings := st;
                          remaining := rest; awaiting := None |}];
           runs := runs s;
           sent := sent s |} r st eq_refl)
        as [s' [He [Hp [Hr' [_ [_ Hid]]]]]].
      exists s'. split; [exact He|]. split; [exact Hp|].
      split; [exact Hr'|]. rewrite Hid. simpl.
      rewrite settled_map, map_map. apply map_ext. intros g.
      destruct (Id_eqb (id g) (id file)); [|reflexivity].
      unfold Runs.finish. destruct (fetch _) as [x|]; [destruct (ok x)|];
        reflexivity.
    - destruct (loop_returns rest s r st Ir)
        as [s' [He [Hp [Hr' [_ [_ Hid]]]]]].
      exists s'. auto. }
  destruct R as [s' [He [Hp [Hr' Hid]]]].
  exists s'. split; [exact Ir|]. split; [exact He|].
  split; [exact Hp|]. split; [exact Hr'|]. split; [|exact Hid].
  assert (Hreach' : exec initial (events ++ rest_of_run i) = Some s').
  { rewrite exec_app, Hreach. exact He. }
  apply (waited_exec _ initial s' waited_initial) in Hreach'.
  destruct Hreach' as [[_ [_ N]] | [Ip' _]]; [|congruence].
  apply none_processing. exact N.
Qed.


(** ** The progress panel *)

Lemma converted_outcome (st : BatchSettings) (f : BatchFile) :
  is_completed (converted st f) = succeeds fetch st f /\
  Panel.is_error (converted st f) = negb (succeeds fetch st f).
Proof.
  unfold Runs.converted, succeeds.
  destruct (fetch (request st f)) as [x|]; [destruct (ok x)|];
    split; reflexivity.
Qed.

Lemma counts_converted (st : BatchSettings) (l : list BatchFile) :
  List.length (filter is_completed (map (converted st) l)) =
    List.length (filter (succeeds fetch st) l) /\
  List.length (filter is_completed (map (converted st) l)) +
  List.length (filter Panel.is_error (map (converted st) l)) =
    List.length l.
Proof.
  induction l as [|f l [IH1 IH2]]; [split; reflexivity|].
  cbn [map filter].
  destruct (converted_outcome st f) as [E1 E2]. rewrite E1, E2.
  destruct (succeeds fetch st f); simpl; rewrite ?IH1; split;
    try reflexivity; lia.
Qed.

(** X13.  After a run over files with distinct identifiers the two
    counters of the progress panel add up to the number of files:
    "Completed" counts the files whose request was answered with
    [response.ok], "Errors" all the others. *)
Theorem X13_the_counters_add_up_after_a_run
  (s : Component)
  (Hidle : isProcessing s = false)
  (Hnone : running s = [])
  (Hsome : files s <> [])
  (Hids : NoDup (ids (files s))) :
  exists s',
    exec s (whole_run (List.length (files s))) = Some s' /\
    completedCount s' =
      List.length (filter (succeeds fetch (settings s)) (files s)) /\
    completedCount s' + errorCount s' = List.length (files s).
Proof.
  unfold whole_run. cbn [Batch.exec Batch.step].
  rewrite Hidle, Hnone.
  destruct (files s) as [|f0 l] eqn:F; [contradiction|].
  rewrite <- F in *.
  replace (Nat.eqb (List.length (files s)) 0) with false
    by (rewrite F; reflexivity).
  simpl orb. cbv iota.
  destruct (loop_converts fetch createObjectURL (files s)
    {| files := map (with_status Processing) (files s);
       settings := settings s;
       isProcessing := true;
       running := [] ++
         [{| run := S (runs s); captured_settings := settings s;
             remaining := files s; awaiting := None |}];
       runs := S (runs s);
       sent := sent s |}
    [] (S (runs s)) (settings s) eq_refl eq_refl Hids)
    as [s' [He [Hf' _]]].
  { intros g []. }
  exists s'. split; [exact He|].
  unfold completedCount, errorCount. rewrite Hf'. simpl.
  apply counts_converted.
Qed.

(** ** The settings and the requests *)

Lemma or_undefined_set_or_absent (v : number) :
  truthy_number (or_undefined v) = Convert.defined (or_undefined v).
Proof.
  unfold or_undefined. destruct (truthy_number (Some v)) eqn:E.
  - rewrite E. reflexivity.
  - reflexivity.
Qed.

Lemma in_replace {A : Type} (k : nat) (x y : A) (l : list A) :
  In y (replace k x l) -> y = x \/ In y l.
Proof.
  revert k. induction l as [|a l IH]; intros k H; simpl in H.
  - destruct k; contradiction.
  - destruct k as [|k]; simpl in H.
    + destruct H as [E | H]; [left; auto | right; right; exact H].
    + destruct H as [E | H]; [right; left; exact E|].
      destruct (IH k H) as [E | H']; [left; exact E | right; right; exact H'].
Qed.

Lemma in_drop {A : Type} (k : nat) (y : A) (l : list A) :
  In y (drop k l) -> In y l.
Proof.
  revert k. induction l as [|a l IH]; intros k H; simpl in H.
  - destruct k; contradiction.
  - destruct k as [|k]; simpl in H.
    + right. exact H.
    + destruct H as [E | H]; [left; exact E | right; exact (IH k H)].
Qed.

Lemma no_zero_dimension_step (s s' : Component) (e : Event) :
  no_zero_dimension s -> step s e = Some s' -> no_zero_dimension s'.
Proof.
  intros [D [C B]] H.
  destruct e as [sel now | target | c | | k | k | k]; simpl in H.
  - inversion H; subst s'. split; [|split]; assumption.
  - destruct (isProcessing s); [discriminate|].
    inversion H; subst s'. split; [|split]; assumption.
  - inversion H; subst s'; clear H. split; [|split; assumption]. simpl.
    destruct D as [Dw Dh].
    destruct c; simpl; split; simpl; try assumption;
      apply or_undefined_set_or_absent.
  - destruct (_ || _)%bool; [discriminate|].
    inversion H; subst s'; clear H. split; [exact D|]. split; [|exact B].
    simpl. intros i Hi. apply in_app_or in Hi.
    destruct Hi as [Hi | [E | []]]; [auto|]. subst i. exact D.
  - destruct (nth_error (running s) k) as [i|] eqn:N; [|discriminate].
    pose proof (C i (nth_error_In _ _ N)) as Ci.
    destruct i as [r st [|file rest] [aw|]]; try discriminate.
    inversion H; subst s'; clear H. split; [exact D|]. simpl. split.
    + intros j Hj. apply in_replace in Hj.
      destruct Hj as [E | Hj]; [subst j; exact Ci | auto].
    + intros r' b Hb. apply in_app_or in Hb.
      destruct Hb as [Hb | [E | []]]; [eauto|].
      inversion E; subst. exact Ci.
  - destruct (nth_error (running s) k) as [i|] eqn:N; [|discriminate].
    pose proof (C i (nth_error_In _ _ N)) as Ci.
    destruct i as [r st rest [file|]]; try discriminate.
    inversion H; subst s'; clear H. split; [exact D|]. simpl.
    split; [|exact B].
    intros j Hj. apply in_replace in Hj.
    destruct Hj as [E | Hj]; [subst j; exact Ci | auto].
  - destruct (nth_error (running s) k) as [[r st [|file rest] [aw|]]|];
      try discriminate.
    inversion H; subst s'; clear H. split; [exact D|]. simpl.
    split; [|exact B].
    intros j Hj. apply in_drop in Hj. auto.
Qed.

(** X14.  A zero typed into the width or height field of the settings
    panel is stored as an absent value.  So in every reachable state the
    settings, and every request the converter has sent, hold for width
    and for height either nothing or a number other than zero. *)
Theorem X14_no_request_carries_a_zero_dimension
  (events : list Event) (s : Component)
  (Hreach : exec initial events = Some s) :
  dimensions_set_or_absent (settings s) /\
  forall r b, In (r, b) (sent s) -> body_dimensions_set_or_absent b.
Proof.
  assert (I : no_zero_dimension s).
  { revert Hreach.
    assert (I0 : no_zero_dimension initial).
    { split; [split; reflexivity|]. split; simpl; intros; contradiction. }
    revert I0. generalize initial. revert s.
    induction events as [|e rest IH]; simpl; intros s s0 I0 H.
    - inversion H; subst. exact I0.
    - destruct (step s0 e) as [s1|] eqn:E; [|discriminate].
      apply (IH s s1); [|exact H].
      apply (no_zero_dimension_step s0 s1 e I0 E). }
  destruct I as [D [_ B]]. split; assumption.
Qed.

(** ** The checkbox "Maintain aspect ratio" *)

Lemma request_same_but_aspect (a b : BatchSettings) (f : BatchFile) :
  same_but_aspect a b -> request a f = request b f.
Proof.
  intros [F [Q [W H]]]. unfold request. rewrite F, Q, W, H. reflexivity.
Qed.

Lemma settled_same_but_aspect (a b : BatchSettings) (f : BatchFile)
  (l : list BatchFile) :
  same_but_aspect a b -> settled a f l = settled b f l.
Proof.
  intros H. unfold Batch.settled.
  rewrite (request_same_but_aspect a b f H). reflexivity.
Qed.

Lemma change_same_but_aspect (c : SettingsChange) (a b : BatchSettings) :
  same_but_aspect a b -> same_but_aspect (change c a) (change c b).
Proof.
  intros [F [Q [W H]]]. destruct c; unfold same_but_aspect; simpl; auto.
Qed.

Lemma Forall2_nth_error {A B : Type} (R : A -> B -> Prop)
  (l1 : list A) (l2 : list B) (k : nat) :
  Forall2 R l1 l2 ->
  match nth_error l1 k, nth_error l2 k with
  | Some x, Some y => R x y
  | None, None => True
  | _, _ => False
  end.
Proof.
  intros H. revert k. induction H as [|x y l1 l2 Hxy H IH]; intros k.
  - destruct k; exact I.
  - destruct k as [|k]; simpl; [exact Hxy | apply IH].
Qed.

Lemma Forall2_replace {A B : Type} (R : A -> B -> Prop)
  (l1 : list A) (l2 : list B) (k : nat) (x : A) (y : B) :
  Forall2 R l1 l2 -> R x y ->
  Forall2 R (replace k x l1) (replace k y l2).
Proof.
  intros H Hxy. revert k. induction H as [|a b l1 l2 Hab H IH]; intros k.
  - destruct k; constructor.
  - destruct k as [|k]; simpl; constructor; auto.
Qed.

Lemma Forall2_drop {A B : Type} (R : A -> B -> Prop)
  (l1 : list A) (l2 : list B) (k : nat) :
  Forall2 R l1 l2 -> Forall2 R (drop k l1) (drop k l2).
Proof.
  intros H. revert k. induction H as [|a b l1 l2 Hab H IH]; intros k.
  - destruct k; constructor.
  - destruct k as [|k]; simpl; [exact H | constructor; auto].
Qed.

Lemma states_same_but_aspect_intro (a b : Component) :
  files a = files b -> isProcessing a = isProcessing b ->
  runs a = runs b -> sent a = sent b ->
  same_but_aspect (settings a) (settings b) ->
  Forall2 calls_same_but_aspect (running a) (running b) ->
  states_same_but_aspect a b.
Proof. unfold states_same_but_aspect. auto 10. Qed.

Ltac same_state :=
  apply states_same_but_aspect_intro; simpl;
  try assumption; try congruence;
  try (apply change_same_but_aspect; assumption).

(** An event takes two states that differ in the checkbox at most to two
    such states, or is impossible in both. *)
Lemma aspect_step (a b a' : Component) (e : Event) :
  states_same_but_aspect a b -> step a e = Some a' ->
  exists b', step b e = Some b' /\ states_same_but_aspect a' b'.
Proof.
  intros [Ef [Ep [Er [Es [St Rn]]]]] H.
  destruct e as [sel now | target | c | | k | k | k]; simpl in H; simpl.
  - inversion H; subst a'; clear H. eexists. split; [reflexivity|].
    same_state.
  - rewrite <- Ep. destruct (isProcessing a); [discriminate|].
    inversion H; subst a'; clear H. eexists. split; [reflexivity|].
    same_state.
  - inversion H; subst a'; clear H. eexists. split; [reflexivity|].
    same_state.
  - rewrite <- Ep, <- Ef. destruct (_ || _)%bool; [discriminate|].
    inversion H; subst a'; clear H. eexists. split; [reflexivity|].
    same_state.
    apply Forall2_app; [exact Rn|]. constructor; [|constructor].
    unfold calls_same_but_aspect; simpl. auto.
  - pose proof (Forall2_nth_error _ _ _ k Rn) as N.
    destruct (nth_error (running a) k) as [i|]; [|discriminate].
    destruct (nth_error (running b) k) as [j|]; [|contradiction].
    destruct i as [r st rem aw], j as [r' st' rem' aw'].
    destruct N as [N1 [N2 [N3 N4]]]. simpl in *. subst r' rem' aw'.
    destruct rem as [|file rest]; [discriminate|].
    destruct aw; [discriminate|].
    inversion H; subst a'; clear H. eexists. split; [reflexivity|].
    same_state.
    + rewrite Es, (request_same_but_aspect st st' file N4). reflexivity.
    + apply Forall2_replace; [exact Rn|].
      unfold calls_same_but_aspect; simpl. auto.
  - pose proof (Forall2_nth_error _ _ _ k Rn) as N.
    destruct (nth_error (running a) k) as [i|]; [|discriminate].
    destruct (nth_error (running b) k) as [j|]; [|contradiction].
    destruct i as [r st rem aw], j as [r' st' rem' aw'].
    destruct N as [N1 [N2 [N3 N4]]]. simpl in *. subst r' rem' aw'.
    destruct aw as [file|]; [|discriminate].
    inversion H; subst a'; clear H. eexists. split; [reflexivity|].
    same_state.
    + rewrite Ef, (settled_same_but_aspect st st' file _ N4). reflexivity.
    + apply Forall2_replace; [exact Rn|].
      unfold calls_same_but_aspect; simpl. auto.
  - pose proof (Forall2_nth_error _ _ _ k Rn) as N.
    destruct (nth_error (running a) k) as [i|]; [|discriminate].
    destruct (nth_error (running b) k) as [j|]; [|contradiction].
    destruct i as [r st rem aw], j as [r' st' rem' aw'].
    destruct N as [N1 [N2 [N3 N4]]]. simpl in *. subst r' rem' aw'.
    destruct rem; [|discriminate]. destruct aw; [discriminate|].
    inversion H; subst a'; clear H. eexists. split; [reflexivity|].
    same_state.
    apply Forall2_drop. exact Rn.
Qed.

Lemma aspect_exec (events : list Event) :
  forall a b a',
    states_same_but_aspect a b -> exec a events = Some a' ->
    exists b', exec b events = Some b' /\ states_same_but_aspect a' b'.
Proof.
  induction events as [|e rest IH]; intros a b a' R H; simpl in *.
  - inversion H; subst. eauto.
  - destruct (step a e) as [a1|] eqn:E; [|discriminate].
    destruct (aspect_step a b a1 e R E) as [b1 [Eb R1]].
    rewrite Eb. apply (IH a1 b1 a' R1 H).
Qed.

Lemma same_but_aspect_refl (s : Component) : states_same_but_aspect s s.
Proof.
  unfold states_same_but_aspect, same_but_aspect.
  repeat split; try reflexivity.
  induction (running s); constructor; [|assumption].
  unfold calls_same_but_aspect, same_but_aspect. auto 10.
Qed.

(** X15.  The checkbox "Maintain aspect ratio" has no effect on what the
    converter does.  Ticking or unticking it at any point of any sequence
    of events changes neither the files, their status, results and
    errors included, nor the requests sent, nor the downloads offered:
    the sequence without that click is possible as well and leads to the
    same of each. *)
Theorem X15_the_aspect_ratio_checkbox_changes_nothing
  (before later : list Event) (checked : bool) (s : Component)
  (Hwith : exec initial
             (before ++ setSettings (set_maintainAspectRatio checked)
                     :: later) = Some s) :
  exists s',
    exec initial (before ++ later) = Some s' /\
    files s' = files s /\ sent s' = sent s /\
    isProcessing s' = isProcessing s /\
    downloadAll s' = downloadAll s.
Proof.
  rewrite exec_app in Hwith. rewrite exec_app.
  destruct (exec initial before) as [s0|]; [|discriminate].
  simpl in Hwith.
  assert (R : states_same_but_aspect
                {| files := files s0;
                   settings := change (set_maintainAspectRatio checked)
                                 (settings s0);
                   isProcessing := isProcessing s0;
                   running := running s0;
                   runs := runs s0;
                   sent := sent s0 |} s0).
  { destruct (same_but_aspect_refl s0) as [_ [_ [_ [_ [_ Rn]]]]].
    apply states_same_but_aspect_intro; simpl; try reflexivity;
      [|exact Rn].
    unfold same_but_aspect. simpl. auto. }
  destruct (aspect_exec later _ s0 s R Hwith)
    as [s' [He [Ef [Ep [_ [Es [[F _] _]]]]]]].
  exists s'. split; [exact He|]. split; [auto|]. split; [auto|].
  split; [auto|].
  unfold downloadAll. rewrite <- Ef.
  assert (L : forall st1 st2 l, format st1 = format st2 ->
                downloadAll_from st1 l = downloadAll_from st2 l).
  { intros st1 st2 l E. induction l as [|f l IH]; simpl; [reflexivity|].
    unfold link. rewrite E, IH. reflexivity. }
  apply L. symmetry. exact F.
Qed.

End MoreBatchFacts.

(** * The batch converter and the endpoint together *)

Section EndToEnd.

Import Batch Runs Runs2 Panel.
Local Open Scope list_scope.

Variable lib : Convert.SharpModule.

Lemma planned_request (st : BatchSettings) (f : BatchFile) :
  Convert.planned (request st f) =
  (if truthy_number (width st) || truthy_number (height st)
   then [Convert.Resize (width st) (height st) Calls.inside] else []) ++
  [Convert.encoder (format st) (quality st)].
Proof.
  unfold Convert.planned, Convert.adjustments, request. simpl.
  destruct (truthy_number (width st) || truthy_number (height st));
    reflexivity.
Qed.

(** X16.  For a file of the batch converter the endpoint makes at most
    two calls: a resize, when a width or a height is set, and the
    output-format call with the quality of the settings.  It never
    rotates, adjusts colours, blurs or sharpens a batch file, and it works
    on the content of the file as read. *)
Theorem X16_a_batch_file_is_only_resized_and_encoded
  (st : BatchSettings) (f : BatchFile) (s : Convert.Sharp)
  (Hbuild : Convert.build lib (request st f) = Some s) :
  Convert.ops s =
    (if truthy_number (width st) || truthy_number (height st)
     then [Convert.Resize (width st) (height st) Calls.inside] else []) ++
    [Convert.encoder (format st) (quality st)] /\
  Convert.input s = Convert.Buffer_from_base64 lib (data (file f)).
Proof.
  apply build_planned in Hbuild. destruct Hbuild as [Hops Hin].
  rewrite Hops, Hin, planned_request. split; reflexivity.
Qed.

(** X17.  With the endpoint behind the network, a file of the batch
    converter ends as follows.  An empty file is refused by the endpoint
    (400) and ends in error, whatever the library.  Any other file ends
    completed, its result being the text of the rendered bytes, exactly
    when the library takes every call and renders the image; when a call
    throws or the rendering fails (500) it ends in error with the message
    'Failed to process'. *)
Theorem X17_outcome_of_a_file_behind_the_endpoint
  (st : BatchSettings) (f : BatchFile) :
  (data (file f) = EmptyString ->
   converted (server lib) st f = failed f) /\
  (data (file f) <> EmptyString ->
   forall s out,
     Convert.build lib (request st f) = Some s ->
     Convert.toBuffer lib s = Some out ->
     converted (server lib) st f =
       completed_with (Convert.Buffer_toString_base64 lib out) f) /\
  (data (file f) <> EmptyString ->
   Convert.build lib (request st f) = None \/
   (exists s, Convert.build lib (request st f) = Some s /\
              Convert.toBuffer lib s = None) ->
   converted (server lib) st f = failed f).
Proof.
  unfold Runs.converted, server, Convert.POST.
  split; [|split].
  - intros E. simpl. rewrite E. reflexivity.
  - intros N s out Hb Hr. simpl Convert.image. simpl truthy_string.
    apply String.eqb_neq in N. rewrite N. simpl negb. cbv iota.
    rewrite Hb. simpl. rewrite Hr. reflexivity.
  - intros N H. simpl Convert.image. simpl truthy_string.
    apply String.eqb_neq in N. rewrite N. simpl negb. cbv iota.
    destruct H as [Hb | [s [Hb Hr]]]; rewrite Hb; simpl;
      [|rewrite Hr]; reflexivity.
Qed.

End EndToEnd.

(** * Downloads *)

Section Downloads.

Import Batch Panel.
Local Open Scope list_scope.

(** X18.  The name of a download is cut at the first dot of the file
    name, not at the last: what [split('.')[0]] keeps holds no dot, the
    file name is what is kept followed by nothing or by a dot and the
    rest, and a name without a dot is kept whole.  A name that starts
    with a dot keeps nothing. *)
Theorem X18_download_name_is_cut_at_the_first_dot (name : string) :
  has_dot (split_dot_0 name) = false /\
  (exists rest,
      name = (split_dot_0 name ++ rest)%string /\
      (rest = EmptyString \/ exists r, rest = String "."%char r)) /\
  (has_dot name = false -> split_dot_0 name = name) /\
  (forall r, split_dot_0 (String "."%char r) = EmptyString).
Proof.
  split; [|split; [|split]].
  - induction name as [|c rest IH]; simpl; [reflexivity|].
    destruct (Ascii.eqb c ".") eqn:E; simpl; [reflexivity|].
    rewrite E. exact IH.
  - induction name as [|c rest [tail [E1 E2]]]; simpl.
    + exists EmptyString. auto.
    + destruct (Ascii.eqb c ".") eqn:E.
      * apply Ascii.eqb_eq in E. subst c.
        exists (String "."%char rest). simpl. eauto.
      * exists tail. simpl. rewrite <- E1. auto.
  - induction name as [|c rest IH]; simpl; [reflexivity|].
    destruct (Ascii.eqb c "."); simpl; [discriminate|].
    intros H. rewrite IH; [reflexivity | exact H].
  - reflexivity.
Qed.

Lemma downloadAll_from_flat_map (st : BatchSettings)
  (l : list BatchFile) :
  downloadAll_from st l = flat_map (downloadSingle st) l.
Proof.
  induction l as [|f l IH]; simpl; [reflexivity|].
  unfold downloadSingle at 1.
  destruct (is_completed f && truthy_string (result f))%bool; simpl;
    rewrite IH; reflexivity.
Qed.

Lemma downloadSingle_link (st : BatchSettings) (f : BatchFile)
  (l : Link) :
  In l (downloadSingle st f) <->
  exists r, status f = Completed /\ result f = Some r /\
            r <> EmptyString /\ l = link st f r.
Proof.
  unfold downloadSingle, is_completed, truthy_string. split.
  - destruct (status f); simpl; try contradiction.
    destruct (result f) as [r|]; simpl; [|contradiction].
    destruct (String.eqb r EmptyString) eqn:E; simpl; [contradiction|].
    intros [H | []]. exists r. apply String.eqb_neq in E. auto.
  - intros [r [S [R [N L]]]]. rewrite S, R. simpl.
    apply String.eqb_neq in N. rewrite N. simpl. left. auto.
Qed.

(** X19.  "Download All" does for each listed file, in order, what the
    file's own download button does.  A link is clicked exactly for the
    files that are completed and hold a result that is not empty, so
    there are never more downloads than the counter on the button
    announces; each link is built from the format currently chosen in the
    settings, which names both the type in the data URL and the extension
    of the download. *)
Theorem X19_download_all_is_download_single_for_each_file
  (s : Component) :
  downloadAll s = flat_map (downloadSingle (settings s)) (files s) /\
  (forall l, In l (downloadAll s) <->
     exists f r, In f (files s) /\ status f = Completed /\
                 result f = Some r /\ r <> EmptyString /\
                 l = link (settings s) f r) /\
  (List.length (downloadAll s) <= completedCount s)%nat.
Proof.
  unfold downloadAll. split; [apply downloadAll_from_flat_map|]. split.
  - intros l. rewrite downloadAll_from_flat_map, in_flat_map. split.
    + intros [f [Hf Hl]]. apply downloadSingle_link in Hl.
      destruct Hl as [r H]. exists f, r. tauto.
    + intros [f [r [Hf H]]]. exists f. split; [exact Hf|].
      apply downloadSingle_link. exists r. exact H.
  - unfold completedCount.
    induction (files s) as [|f l IH]; simpl; [lia|].
    destruct (is_completed f); simpl; [|exact IH].
    destruct (truthy_string (result f)); simpl; lia.
Qed.

End Downloads.

(** * The page: quick convert and the image editor *)

Section Page.

Import Convert Calls Stages.

Variable lib : SharpModule.

(** X20.  For the quick conversion of any file the endpoint makes exactly
    two calls: a resize to width 800 with no height, fit inside and
    without enlargement, and the jpeg call with quality 90; it works on
    the content of the file as read.  An empty file is refused with 400
    before any call. *)
Theorem X20_quick_convert_resizes_to_800_and_encodes_jpeg
  (originalFile : Batch.File) :
  (forall s,
      build lib (Home.handleQuickConvert_body originalFile) = Some s ->
      ops s = [Resize (Some (800 # 1)%Q) None inside; Jpeg (90 # 1)%Q] /\
      input s = Buffer_from_base64 lib (Batch.data originalFile)) /\
  (Batch.data originalFile = EmptyString ->
   POST lib (Home.handleQuickConvert_body originalFile) =
     {| status := 400; payload := JsonError "No image data provided" |}).
Proof.
  split.
  - intros s Hbuild. apply build_planned in Hbuild.
    destruct Hbuild as [Hops Hin]. rewrite Hops, Hin.
    split; reflexivity.
  - intros E. unfold POST. simpl. rewrite E. reflexivity.
Qed.

Variable browser : Editor.Browser.

Lemma save_request_sent (st : Editor.State)
  (imgRef : option Editor.Img.t) (canvasRef : option Editor.Canvas)
  (calls : list Editor.CanvasCall) (body : Body) :
  Home.save_request browser st imgRef canvasRef = (calls, Some body) ->
  (exists img canvas crop url,
      imgRef = Some img /\ canvasRef = Some canvas /\
      Editor.has_context canvas = true /\
      Editor.completedCrop st = Some crop /\
      Editor.drawCroppedImage browser st imgRef canvasRef
        = (calls, Some url) /\
      url <> EmptyString /\
      image body = Editor.split_comma_1 url) /\
  format body = Some (Editor.format st) /\
  quality body = Some (Editor.quality st) /\
  width body = Editor.width st /\
  height body = Editor.height st /\
  rotate body = Some (Editor.rotation st) /\
  filters body =
    Some {| brightness := Some (Editor.brightness st);
            saturation := Some (Editor.saturation st);
            contrast := Some (Editor.contrast st);
            blur := Some (Editor.blur st);
            sharpen := None |}.
Proof.
  unfold Home.save_request, Editor.handleSave.
  destruct (Editor.drawCroppedImage browser st imgRef canvasRef)
    as [calls' data] eqn:D.
  destruct (truthy_string data) eqn:T; [|discriminate].
  intros H. inversion H; subst calls body; clear H. simpl.
  split; [|repeat split].
  destruct data as [url|]; [|discriminate T].
  unfold Editor.drawCroppedImage in D.
  destruct imgRef as [img|]; [|discriminate D].
  destruct canvasRef as [canvas|]; [|discriminate D].
  destruct (Editor.completedCrop st) as [crop|] eqn:Ecrop;
    [|discriminate D].
  destruct (Editor.has_context canvas) eqn:C; [|discriminate D].
  exists img, canvas, crop, url.
  split; [reflexivity|]. split; [reflexivity|].
  split; [first [exact C | reflexivity]|].
  split; [first [exact Ecrop | reflexivity]|].
  split; [reflexivity|]. simpl in T.
  apply negb_true_iff in T. apply String.eqb_neq in T.
  split; [exact T | reflexivity].
Qed.

(** X21.  What is set in the editor is applied twice.  When a click on
    "Save Changes" leads to a request, the canvas has been given the
    brightness, contrast, saturation and blur of the editor as its
    filter, and been turned when the rotation is not zero, before the
    picture was drawn and encoded; the request for that picture carries
    the same rotation and the same four values again, so the endpoint
    makes its brightness, saturation and contrast calls for every save,
    also with the untouched values 1, and its rotate and blur calls
    whenever rotation and blur are not zero. *)
Theorem X21_an_edit_is_applied_on_the_canvas_and_requested_again
  (st : Editor.State)
  (imgRef : option Editor.Img.t) (canvasRef : option Editor.Canvas)
  (calls : list Editor.CanvasCall) (body : Body) (s : Sharp)
  (Hsave : Home.save_request browser st imgRef canvasRef
           = (calls, Some body))
  (Hbuild : build lib body = Some s) :
  In (Editor.set_filter (Editor.brightness st) (Editor.contrast st)
        (Editor.saturation st) (Editor.blur st)) calls /\
  filter is_colour (ops s) =
    [Modulate (Some (Editor.brightness st)) None;
     Modulate None (Some (Editor.saturation st));
     Linear (Some (Editor.contrast st)) 0%Q] /\
  (Qeq_bool (Editor.rotation st) 0%Q = false ->
   In (Editor.rotate
         (Editor.over browser
            (Editor.times browser (Editor.rotation st)
               (Editor.Math_PI browser)) (180 # 1)%Q)) calls /\
   filter is_rotate (ops s) = [Rotate (Some (Editor.rotation st))]) /\
  (Qeq_bool (Editor.rotation st) 0%Q = true ->
   (forall angle, ~ In (Editor.rotate angle) calls) /\
   filter is_rotate (ops s) = []) /\
  (gt (Editor.blur st) 0%Q = true ->
   exists sigma, filter is_blur (ops s) = [Blur sigma]) /\
  (gt (Editor.blur st) 0%Q = false -> filter is_blur (ops s) = []).
Proof.
  destruct (save_request_sent st imgRef canvasRef calls body Hsave)
    as [[img [canvas [crop [url [Ei [Ec [Ctx [Ecrop [D _]]]]]]]]]
        [_ [_ [_ [_ [Er Ef]]]]]].
  apply build_planned in Hbuild. destruct Hbuild as [Hops _].
  rewrite Hops, filter_colour_planned, filter_rotate_planned,
    filter_blur_planned.
  unfold filters_of, blur_of. rewrite Er, Ef. simpl.
  unfold Editor.drawCroppedImage in D.
  rewrite Ei, Ec, Ecrop, Ctx in D. simpl in D.
  inversion D as [[Hc Hu]]; clear D Hu.
  split; [|split; [reflexivity|split; [|split; [|split]]]].
  - simpl. auto 6.
  - intros R. rewrite R. simpl. split; [auto 8 | reflexivity].
  - intros R. rewrite R. simpl. split; [|reflexivity].
    intros angle H. simpl in H.
    repeat destruct H as [H | H]; try discriminate H; exact H.
  - intros B. unfold blur_calls. rewrite B. eauto.
  - intros B. unfold blur_calls. rewrite B. reflexivity.
Qed.

Lemma draw_ready (st : Editor.State)
  (img : Editor.Img.t) (canvas : Editor.Canvas)
  (crop : Editor.PixelCrop.t) :
  Editor.has_context canvas = true ->
  Editor.completedCrop st = Some crop ->
  exists calls url,
    Editor.drawCroppedImage browser st (Some img) (Some canvas)
      = (calls, Some url) /\
    calls <> [].
Proof.
  intros Ctx Ecrop. unfold Editor.drawCroppedImage.
  rewrite Ecrop, Ctx. simpl negb. cbv iota.
  eexists. eexists. split; [reflexivity | discriminate].
Qed.

(** X22.  "Save Changes" does nothing at all, neither on the canvas nor
    towards the endpoint, as long as no crop has been completed, and
    likewise without image, canvas or drawing context; this is the case
    in a freshly opened editor.  Otherwise the picture is drawn, and the
    request is sent exactly when the canvas yields a data URL that is not
    empty. *)
Theorem X22_save_needs_a_completed_crop
  (st : Editor.State)
  (imgRef : option Editor.Img.t) (canvasRef : option Editor.Canvas) :
  (Editor.completedCrop st = None \/ imgRef = None \/ canvasRef = None \/
   (exists canvas, canvasRef = Some canvas /\
                   Editor.has_context canvas = false) ->
   Home.save_request browser st imgRef canvasRef = ([], None)) /\
  (forall img canvas crop,
      imgRef = Some img -> canvasRef = Some canvas ->
      Editor.has_context canvas = true ->
      Editor.completedCrop st = Some crop ->
      exists calls url,
        Editor.drawCroppedImage browser st imgRef canvasRef
          = (calls, Some url) /\
        calls <> [] /\
        (url = EmptyString ->
         Home.save_request browser st imgRef canvasRef = (calls, None)) /\
        (url <> EmptyString ->
         exists body,
           Home.save_request browser st imgRef canvasRef
             = (calls, Some body) /\
           image body = Editor.split_comma_1 url)) /\
  Home.save_request browser Editor.opened imgRef canvasRef = ([], None).
Proof.
  split; [|split].
  - unfold Home.save_request, Editor.handleSave, Editor.drawCroppedImage.
    intros [H | [H | [H | [canvas [H C]]]]].
    + rewrite H. destruct imgRef; [destruct canvasRef|]; reflexivity.
    + rewrite H. reflexivity.
    + rewrite H. destruct imgRef; reflexivity.
    + rewrite H, C. destruct imgRef; [|reflexivity].
      destruct (Editor.completedCrop st); reflexivity.
  - intros img canvas crop Ei Ec Ctx Ecrop. subst imgRef canvasRef.
    destruct (draw_ready st img canvas crop Ctx Ecrop)
      as [calls [url [D N]]].
    exists calls, url. split; [exact D|]. split; [exact N|].
    unfold Home.save_request, Editor.handleSave. rewrite D.
    simpl truthy_string. split.
    + intros E. rewrite E. reflexivity.
    + intros Nu. apply String.eqb_neq in Nu. rewrite Nu. simpl.
      eexists. split; reflexivity.
  - unfold Home.save_request, Editor.handleSave, Editor.drawCroppedImage.
    simpl. destruct imgRef; [destruct canvasRef|]; reflexivity.
Qed.

(** X23.  "Reset All" puts rotation back to 0, brightness, contrast and
    saturation to 1 and blur to 0, keeps crop, format, quality, width and
    height, and has no further effect when repeated.  A save right after
    it turns nothing on the canvas and makes the endpoint neither rotate
    nor blur, but still make its brightness, saturation and contrast
    calls, each with the value 1. *)
Theorem X23_reset_all_restores_the_neutral_adjustments
  (st : Editor.State)
  (imgRef : option Editor.Img.t) (canvasRef : option Editor.Canvas)
  (calls : list Editor.CanvasCall) (body : Body) (s : Sharp)
  (Hsave : Home.save_request browser (Editor.resetFilters st)
             imgRef canvasRef = (calls, Some body))
  (Hbuild : build lib body = Some s) :
  Editor.resetFilters (Editor.resetFilters st) = Editor.resetFilters st /\
  Editor.completedCrop (Editor.resetFilters st)
    = Editor.completedCrop st /\
  format body = Some (Editor.format st) /\
  quality body = Some (Editor.quality st) /\
  width body = Editor.width st /\ height body = Editor.height st /\
  In (Editor.set_filter 1%Q 1%Q 1%Q 0%Q) calls /\
  (forall angle, ~ In (Editor.rotate angle) calls) /\
  filter is_rotate (ops s) = [] /\
  filter is_blur (ops s) = [] /\
  filter is_colour (ops s) =
    [Modulate (Some 1%Q) None; Modulate None (Some 1%Q);
     Linear (Some 1%Q) 0%Q].
Proof.
  split; [reflexivity|]. split; [reflexivity|].
  destruct (save_request_sent _ imgRef canvasRef calls body Hsave)
    as [[img [canvas [crop [url [Ei [Ec [Ctx [Ecrop [D _]]]]]]]]]
        [Ef [Eq [Ew [Eh [Er Efi]]]]]].
  split; [exact Ef|]. split; [exact Eq|]. split; [exact Ew|].
  split; [exact Eh|].
  apply build_planned in Hbuild. destruct Hbuild as [Hops _].
  rewrite Hops, filter_colour_planned, filter_rotate_planned,
    filter_blur_planned.
  unfold filters_of, blur_of. rewrite Er, Efi. simpl.
  unfold Editor.drawCroppedImage in D.
  rewrite Ei, Ec, Ecrop, Ctx in D. simpl in D.
  inversion D as [[Hc Hu]]; clear D Hu.
  split; [simpl; auto 6|]. split.
  - intros angle H. simpl in H.
    repeat destruct H as [H | H]; try discriminate H; exact H.
  - repeat split; reflexivity.
Qed.

End Page.

(** * Instances of the further properties *)

Section Instances.

Import Convert Stages Calls Batch Runs Runs2 Panel.
Local Open Scope list_scope.
Local Open Scope nat_scope.

Local Abbreviation exec := (Batch.exec Demo.fetch Demo.createObjectURL).
Local Abbreviation step := (Batch.step Demo.fetch Demo.createObjectURL).


Lemma X2_sharpen_is_passed_unclamped_or_skipped_witness :
  (forall v, sharpen (filters_of Examples2.heavy_sharpen) = Some v ->
             (0 < v)%Q ->
             filter is_sharpen
               (ops (Examples2.built Examples2.heavy_sharpen))
             = [Sharpen (Some v)]) /\
  (forall v, sharpen (filters_of Examples2.heavy_sharpen) = Some v ->
             (v <= 0)%Q ->
             filter is_sharpen
               (ops (Examples2.built Examples2.heavy_sharpen)) = []) /\
  (sharpen (filters_of Examples2.heavy_sharpen) = None ->
   filter is_sharpen (ops (Examples2.built Examples2.heavy_sharpen))
   = []).
Proof.
  apply (X2_sharpen_is_passed_unclamped_or_skipped Demo.lib
           Examples2.heavy_sharpen).
  reflexivity.
Defined.

Lemma X3_resize_and_rotate_are_guarded_by_truthiness_witness :
  filter is_resize (ops (Examples2.built Examples2.zero_width)) =
    (if truthy_number (Convert.width Examples2.zero_width)
        || truthy_number (Convert.height Examples2.zero_width)
     then [Resize (Convert.width Examples2.zero_width)
             (Convert.height Examples2.zero_width) inside]
     else []) /\
  filter is_rotate (ops (Examples2.built Examples2.zero_width)) =
    (if truthy_number (rotate Examples2.zero_width)
     then [Rotate (rotate Examples2.zero_width)] else []).
Proof.
  apply (X3_resize_and_rotate_are_guarded_by_truthiness Demo.lib
           Examples2.zero_width).
  reflexivity.
Defined.

Lemma X4_colour_values_are_passed_unchecked_witness :
  filter is_colour (ops (Examples2.built Examples2.dark)) =
    (match brightness (filters_of Examples2.dark) with
     | Some v => [Modulate (Some v) None]
     | None => []
     end) ++
    (match saturation (filters_of Examples2.dark) with
     | Some v => [Modulate None (Some v)]
     | None => []
     end) ++
    (match contrast (filters_of Examples2.dark) with
     | Some v => [Linear (Some v) 0%Q]
     | None => []
     end).
Proof.
  apply (X4_colour_values_are_passed_unchecked Demo.lib Examples2.dark).
  reflexivity.
Defined.

Lemma X8_a_run_keeps_the_list_of_files_witness :
  map identity (files (Examples.after Examples.first_sent)) =
  map identity (files (Examples.after Examples.started)).
Proof.
  apply (X8_a_run_keeps_the_list_of_files Demo.fetch Demo.createObjectURL
           (Examples.after Examples.started)
           (Examples.after Examples.first_sent)
           (processFile_begin 0)); reflexivity.
Defined.



Lemma X11_a_run_in_progress_can_finish_witness :
  exists i s',
    running (Examples.after Examples.first_sent) = [i] /\
    exec (Examples.after Examples.first_sent) (rest_of_run i) = Some s' /\
    isProcessing s' = false /\ running s' = [] /\
    processing_count s' = 0 /\
    map identity (files s') =
      map identity (files (Examples.after Examples.first_sent)).
Proof.
  apply (X11_a_run_in_progress_can_finish Demo.fetch Demo.createObjectURL
           Examples.first_sent); reflexivity.
Defined.


Lemma X13_the_counters_add_up_after_a_run_witness :
  exists s',
    exec Examples.enrolled
      (whole_run (List.length (files Examples.enrolled))) = Some s' /\
    completedCount s' =
      List.length (filter (succeeds Demo.fetch (settings Examples.enrolled))
                     (files Examples.enrolled)) /\
    completedCount s' + errorCount s'
      = List.length (files Examples.enrolled).
Proof.
  apply (X13_the_counters_add_up_after_a_run Demo.fetch
           Demo.createObjectURL Examples.enrolled).
  - reflexivity.
  - reflexivity.
  - discriminate.
  - vm_compute. repeat constructor; simpl;
      intros H; repeat destruct H as [H | H]; try discriminate H; exact H.
Defined.

Lemma X14_no_request_carries_a_zero_dimension_witness :
  dimensions_set_or_absent
    (settings (Examples.after Examples.changed_midway)) /\
  forall r b, In (r, b) (sent (Examples.after Examples.changed_midway)) ->
              body_dimensions_set_or_absent b.
Proof.
  apply (X14_no_request_carries_a_zero_dimension Demo.fetch
           Demo.createObjectURL Examples.changed_midway).
  reflexivity.
Defined.

Lemma X15_the_aspect_ratio_checkbox_changes_nothing_witness :
  exists s',
    exec initial (Examples.started ++ loop 3) = Some s' /\
    files s' = files (Examples.after Examples2.unticked_midway) /\
    sent s' = sent (Examples.after Examples2.unticked_midway) /\
    isProcessing s'
      = isProcessing (Examples.after Examples2.unticked_midway) /\
    downloadAll s' = downloadAll (Examples.after Examples2.unticked_midway).
Proof.
  apply (X15_the_aspect_ratio_checkbox_changes_nothing Demo.fetch
           Demo.createObjectURL Examples.started (loop 3) false).
  reflexivity.
Defined.

Lemma X16_a_batch_file_is_only_resized_and_encoded_witness :
  ops (Examples2.built
         (request (settings Examples.enrolled)
            (Examples.first_of Examples.enrolled))) =
    (if truthy_number (Batch.width (settings Examples.enrolled))
        || truthy_number (Batch.height (settings Examples.enrolled))
     then [Resize (Batch.width (settings Examples.enrolled))
             (Batch.height (settings Examples.enrolled)) inside]
     else []) ++
    [encoder (Batch.format (settings Examples.enrolled))
       (Batch.quality (settings Examples.enrolled))] /\
  input (Examples2.built
           (request (settings Examples.enrolled)
              (Examples.first_of Examples.enrolled))) =
    Buffer_from_base64 Demo.lib
      (data (file (Examples.first_of Examples.enrolled))).
Proof.
  apply (X16_a_batch_file_is_only_resized_and_encoded Demo.lib
           (settings Examples.enrolled)
           (Examples.first_of Examples.enrolled)).
  reflexivity.
Defined.

Lemma X21_an_edit_is_applied_on_the_canvas_and_requested_again_witness :
  In (Editor.set_filter (Editor.brightness Examples2.tilted)
        (Editor.contrast Examples2.tilted)
        (Editor.saturation Examples2.tilted)
        (Editor.blur Examples2.tilted))
    (Examples2.saved_calls Examples2.tilted) /\
  filter is_colour
    (ops (Examples2.built (Examples2.saved_body Examples2.tilted))) =
    [Modulate (Some (Editor.brightness Examples2.tilted)) None;
     Modulate None (Some (Editor.saturation Examples2.tilted));
     Linear (Some (Editor.contrast Examples2.tilted)) 0%Q] /\
  (Qeq_bool (Editor.rotation Examples2.tilted) 0%Q = false ->
   In (Editor.rotate
         (Editor.over Examples2.browser
            (Editor.times Examples2.browser
               (Editor.rotation Examples2.tilted)
               (Editor.Math_PI Examples2.browser)) (180 # 1)%Q))
     (Examples2.saved_calls Examples2.tilted) /\
   filter is_rotate
     (ops (Examples2.built (Examples2.saved_body Examples2.tilted)))
   = [Rotate (Some (Editor.rotation Examples2.tilted))]) /\
  (Qeq_bool (Editor.rotation Examples2.tilted) 0%Q = true ->
   (forall angle,
       ~ In (Editor.rotate angle)
           (Examples2.saved_calls Examples2.tilted)) /\
   filter is_rotate
     (ops (Examples2.built (Examples2.saved_body Examples2.tilted)))
   = []) /\
  (gt (Editor.blur Examples2.tilted) 0%Q = true ->
   exists sigma,
     filter is_blur
       (ops (Examples2.built (Examples2.saved_body Examples2.tilted)))
     = [Blur sigma]) /\
  (gt (Editor.blur Examples2.tilted) 0%Q = false ->
   filter is_blur
     (ops (Examples2.built (Examples2.saved_body Examples2.tilted)))
   = []).
Proof.
  apply (X21_an_edit_is_applied_on_the_canvas_and_requested_again
           Demo.lib Examples2.browser Examples2.tilted
           (Some Examples2.picture) (Some Examples2.canvas)
           (Examples2.saved_calls Examples2.tilted)
           (Examples2.saved_body Examples2.tilted)
           (Examples2.built (Examples2.saved_body Examples2.tilted))).
  - reflexivity.
  - reflexivity.
Defined.

Lemma X23_reset_all_restores_the_neutral_adjustments_witness :
  Editor.resetFilters (Editor.resetFilters Examples2.tilted)
    = Editor.resetFilters Examples2.tilted /\
  Editor.completedCrop (Editor.resetFilters Examples2.tilted)
    = Editor.completedCrop Examples2.tilted /\
  Convert.format
    (Examples2.saved_body (Editor.resetFilters Examples2.tilted))
    = Some (Editor.format Examples2.tilted) /\
  Convert.quality
    (Examples2.saved_body (Editor.resetFilters Examples2.tilted))
    = Some (Editor.quality Examples2.tilted) /\
  Convert.width
    (Examples2.saved_body (Editor.resetFilters Examples2.tilted))
    = Editor.width Examples2.tilted /\
  Convert.height
    (Examples2.saved_body (Editor.resetFilters Examples2.tilted))
    = Editor.height Examples2.tilted /\
  In (Editor.set_filter 1%Q 1%Q 1%Q 0%Q)
    (Examples2.saved_calls (Editor.resetFilters Examples2.tilted)) /\
  (forall angle,
      ~ In (Editor.rotate angle)
          (Examples2.saved_calls (Editor.resetFilters Examples2.tilted)))
  /\
  filter is_rotate
    (ops (Examples2.built
            (Examples2.saved_body (Editor.resetFilters Examples2.tilted))))
    = [] /\
  filter is_blur
    (ops (Examples2.built
            (Examples2.saved_body (Editor.resetFilters Examples2.tilted))))
    = [] /\
  filter is_colour
    (ops (Examples2.built
            (Examples2.saved_body (Editor.resetFilters Examples2.tilted))))
    = [Modulate (Some 1%Q) None; Modulate None (Some 1%Q);
       Linear (Some 1%Q) 0%Q].
Proof.
  apply (X23_reset_all_restores_the_neutral_adjustments
           Demo.lib Examples2.browser Examples2.tilted
           (Some Examples2.picture) (Some Examples2.canvas)
           (Examples2.saved_calls (Editor.resetFilters Examples2.tilted))
           (Examples2.saved_body (Editor.resetFilters Examples2.tilted))
           (Examples2.built
              (Examples2.saved_body
                 (Editor.resetFilters Examples2.tilted)))).
  - reflexivity.
  - reflexivity.
Defined.

End Instances.
